(** * debugtimer: a shallow embedding of [debugtimer/debugtimer.py]

    The module defines two context managers, [TimeAccumulator] and
    [DebugTimer].  Both are embedded here as state-passing programs over a
    world made of an object heap, the text printed so far and the number of
    clock readings already taken.

    Conventions of the embedding.
    - Python objects live in a heap and are referred to by location, so
      that the accumulators a timer owns are shared with whoever looked
      them up in [timer.accumulators].
    - A slot of [__slots__] that has not been assigned yet is [None] in an
      [option] field; reading it raises [AttributeError], as in Python.
    - A Python [float] is idealised as an exact rational ([Q]): [+], [-]
      and [/] do not round.  [math.log10 x] is kept symbolic (the real
      number whose antilogarithm is [x]); comparing it with an integer [k]
      compares [x] with [10^k].
    - [time.perf_counter()] returns the successive values of a sequence
      [clock : nat -> Q] of readings.
    - The global names a method body uses are looked up at run time in
      an explicit table, as Python does; [module_globals] is the table the
      module's own import statements build.  The two class names are bound
      by their [class] statements and are not looked up through the table.
    - Parameter annotations are not part of what a method does when it is
      called and are not embedded: the methods are taken as defined, as
      they are where annotations are evaluated lazily.  ([Optional], used
      in the signature of [DebugTimer.__init__], is not imported
      either.) *)

From Stdlib Require Import QArith Qabs ZArith String Ascii List Lia Lqa DecimalString.
From stdpp Require Import base list strings option.

Local Open Scope string_scope.
Local Open Scope Z_scope.

(** ** Exceptions, results and the world *)

Inductive exn : Type :=
| NameError (name : string)
| UnboundLocalError (name : string)
| AttributeError (attr : string)
| KeyError (key : string)
| ValueError (msg : string)
| ZeroDivisionError.

Inductive result (A : Type) : Type :=
| Ok (a : A)
| Raise (e : exn).
Arguments Ok {A} a.
Arguments Raise {A} e.

Definition loc := nat.

(** What a method hands back to its caller: [None] or a reference. *)
Inductive value : Type :=
| VNone
| VRef (l : loc).

Module TimeAccumulator_obj.
(** [__slots__ = ("duration", "num_calls", "start")] *)
Record t : Type := mk {
  duration : option Q;
  num_calls : option Z;
  start : option Q
}.
Definition blank : t := mk None None None.
End TimeAccumulator_obj.

Module DebugTimer_obj.
(** [__slots__ = ("name", "silent", "accumulators", "start", "duration_sec")];
    [accumulators] is a [dict], kept in insertion order. *)
Record t : Type := mk {
  name : option (option string);
  silent : option bool;
  accumulators : option (list (string * loc));
  start : option Q;
  duration_sec : option Q
}.
Definition blank : t := mk None None None None None.
End DebugTimer_obj.

Inductive obj : Type :=
| ObjAcc (a : TimeAccumulator_obj.t)
| ObjTimer (d : DebugTimer_obj.t).

Record world : Type := World {
  heap : list obj;
  stdout : list string;   (* one entry per call of [print], oldest first *)
  ticks : nat             (* clock readings taken so far *)
}.

Definition M (A : Type) : Type := world -> result A * world.

Definition ret {A} (a : A) : M A := fun w => (Ok a, w).
Definition raise {A} (e : exn) : M A := fun w => (Raise e, w).
Definition bind {A B} (c : M A) (k : A -> M B) : M B :=
  fun w => match c w with
           | (Ok a, w') => k a w'
           | (Raise e, w') => (Raise e, w')
           end.

Notation "'let*' x ':=' c 'in' k" := (bind c (fun x => k))
  (at level 10, x name, c at level 100, k at level 200).

Definition from_slot {A} (attr : string) (o : option A) : M A :=
  match o with
  | Some a => ret a
  | None => raise (AttributeError attr)
  end.

Definition alloc (o : obj) : M loc :=
  fun w => (Ok (length (heap w)),
            World (heap w ++ [o]) (stdout w) (ticks w)).

Definition store (l : loc) (o : obj) : M unit :=
  fun w => (Ok tt, World (<[l := o]> (heap w)) (stdout w) (ticks w)).

Definition print (line : string) : M unit :=
  fun w => (Ok tt, World (heap w) (stdout w ++ [line]) (ticks w)).

(** ** Module globals and the two standard modules the code names *)

Inductive pymodule : Type :=
| mod_time
| mod_math.

Definition globals : Type := list (string * pymodule).

(** Line 1, [import time], is the only import statement of the module. *)
Definition module_globals : globals := [("time", mod_time)].

(** The table the module would have with [import math] added. *)
Definition globals_with_math : globals := ("math", mod_math) :: module_globals.

Fixpoint lookup_name {V} (k : string) (d : list (string * V)) : option V :=
  match d with
  | [] => None
  | (k', v) :: d' => if String.eqb k' k then Some v else lookup_name k d'
  end.

Definition load_global (g : globals) (name : string) : M pymodule :=
  match lookup_name name g with
  | Some m => ret m
  | None => raise (NameError name)
  end.

(** ** Numbers *)

Definition Qltb (x y : Q) : bool := negb (Qle_bool y x).

(** The value of [math.log10 x] for [x > 0], kept as its antilogarithm. *)
Record logval : Type := Log10 { antilog : Q }.

Definition int_lt_log (k : Z) (v : logval) : bool := Qltb (10 ^ k)%Q (antilog v).
Definition log_lt_int (v : logval) (k : Z) : bool := Qltb (antilog v) (10 ^ k)%Q.

(** [math.log10(x)]: [ValueError] outside the domain. *)
Definition log10 (m : pymodule) (x : Q) : M logval :=
  match m with
  | mod_math =>
      if Qle_bool x 0 then raise (ValueError "math domain error")
      else ret (Log10 x)
  | mod_time => raise (AttributeError "log10")
  end.

(** [x / y] on floats. *)
Definition truediv (x y : Q) : M Q :=
  if Qeq_bool y 0 then raise ZeroDivisionError else ret (x / y)%Q.

(** [time.perf_counter()]: the next reading of the clock. *)
Definition perf_counter (clock : nat -> Q) (m : pymodule) : M Q :=
  match m with
  | mod_time =>
      fun w => (Ok (clock (ticks w)), World (heap w) (stdout w) (S (ticks w)))
  | mod_math => raise (AttributeError "perf_counter")
  end.

(** ** Text *)

Definition str_of_int (n : Z) : string := NilZero.string_of_int (Z.to_int n).

(** Nearest integer, ties to the even one. *)
Definition round_half_even (q : Q) : Z :=
  let n := Qnum q in
  let d := Z.pos (Qden q) in
  let fl := n / d in
  let r2 := 2 * (n mod d) in
  if r2 <? d then fl
  else if d <? r2 then fl + 1
  else if Z.even fl then fl else fl + 1.

Definition pad3 (n : Z) : string :=
  let s := str_of_int n in
  if n <? 10 then "00" ++ s else if n <? 100 then "0" ++ s else s.

(** The format specification [.3f]. *)
Definition format_3f (q : Q) : string :=
  let m := round_half_even (Qabs q * 1000)%Q in
  (if Qltb q 0 then "-" else "") ++ str_of_int (m / 1000) ++ "." ++ pad3 (m mod 1000).

Definition tab : string := String (ascii_of_nat 9) "".

(** ** [dict] *)

Fixpoint dict_setitem {V} (d : list (string * V)) (k : string) (v : V)
  : list (string * V) :=
  match d with
  | [] => [(k, v)]
  | (k', v') :: d' =>
      if String.eqb k' k then (k', v) :: d' else (k', v') :: dict_setitem d' k v
  end.

Definition dict_getitem {V} (d : list (string * V)) (k : string) : M V :=
  match lookup_name k d with
  | Some v => ret v
  | None => raise (KeyError k)
  end.

(** ** Attribute access on heap objects *)

Definition get_acc (l : loc) : M TimeAccumulator_obj.t :=
  fun w => match heap w !! l with
           | Some (ObjAcc a) => (Ok a, w)
           | _ => (Raise (AttributeError "TimeAccumulator"), w)
           end.

Definition get_timer (l : loc) : M DebugTimer_obj.t :=
  fun w => match heap w !! l with
           | Some (ObjTimer d) => (Ok d, w)
           | _ => (Raise (AttributeError "DebugTimer"), w)
           end.

(** [time.perf_counter()] as the source writes it: the global [time] is
    looked up first, then its attribute is called. *)
Definition time_perf_counter (clock : nat -> Q) (g : globals) : M Q :=
  let* m := load_global g "time" in perf_counter clock m.

(** ** class TimeAccumulator *)

Module TimeAccumulator.
Import TimeAccumulator_obj.

Definition set_duration (self : loc) (v : Q) : M unit :=
  let* a := get_acc self in
  store self (ObjAcc (mk (Some v) (num_calls a) (start a))).

Definition set_num_calls (self : loc) (v : Z) : M unit :=
  let* a := get_acc self in
  store self (ObjAcc (mk (duration a) (Some v) (start a))).

Definition set_start (self : loc) (v : Q) : M unit :=
  let* a := get_acc self in
  store self (ObjAcc (mk (duration a) (num_calls a) (Some v))).

Definition get_duration (self : loc) : M Q :=
  let* a := get_acc self in from_slot "duration" (duration a).

Definition get_num_calls (self : loc) : M Z :=
  let* a := get_acc self in from_slot "num_calls" (num_calls a).

Definition get_start (self : loc) : M Q :=
  let* a := get_acc self in from_slot "start" (start a).

(** lines 10-12 *)
Definition __init__ (self : loc) : M value :=
  let* _ := set_duration self 0.0%Q in
  let* _ := set_num_calls self 0 in
  ret VNone.

(** [TimeAccumulator()]: a new object, then [__init__] on it. *)
Definition new : M loc :=
  let* self := alloc (ObjAcc blank) in
  let* _ := __init__ self in
  ret self.

Section Methods.
Variable clock : nat -> Q.
Variable g : globals.

(** lines 14-16; the body ends without a [return]. *)
Definition __enter__ (self : loc) : M value :=
  let* n := get_num_calls self in
  let* _ := set_num_calls self (n + 1) in
  let* now := time_perf_counter clock g in
  let* _ := set_start self now in
  ret VNone.

(** lines 18-20 *)
Definition __exit__ (self : loc) : M value :=
  let* now := time_perf_counter clock g in
  let* s := get_start self in
  let incremental_duration := (now - s)%Q in
  let* d := get_duration self in
  let* _ := set_duration self (d + incremental_duration)%Q in
  ret VNone.

End Methods.
End TimeAccumulator.

(** ** class DebugTimer *)

Module DebugTimer.
Import DebugTimer_obj.

Definition set_name (self : loc) (v : option string) : M unit :=
  let* d := get_timer self in
  store self (ObjTimer (mk (Some v) (silent d) (accumulators d) (start d) (duration_sec d))).

Definition set_silent (self : loc) (v : bool) : M unit :=
  let* d := get_timer self in
  store self (ObjTimer (mk (name d) (Some v) (accumulators d) (start d) (duration_sec d))).

Definition set_accumulators (self : loc) (v : list (string * loc)) : M unit :=
  let* d := get_timer self in
  store self (ObjTimer (mk (name d) (silent d) (Some v) (start d) (duration_sec d))).

Definition set_start (self : loc) (v : Q) : M unit :=
  let* d := get_timer self in
  store self (ObjTimer (mk (name d) (silent d) (accumulators d) (Some v) (duration_sec d))).

Definition set_duration_sec (self : loc) (v : Q) : M unit :=
  let* d := get_timer self in
  store self (ObjTimer (mk (name d) (silent d) (accumulators d) (start d) (Some v))).

Definition get_name (self : loc) : M (option string) :=
  let* d := get_timer self in from_slot "name" (name d).

Definition get_silent (self : loc) : M bool :=
  let* d := get_timer self in from_slot "silent" (silent d).

Definition get_accumulators (self : loc) : M (list (string * loc)) :=
  let* d := get_timer self in from_slot "accumulators" (accumulators d).

Definition get_start (self : loc) : M Q :=
  let* d := get_timer self in from_slot "start" (start d).

Definition get_duration_sec (self : loc) : M Q :=
  let* d := get_timer self in from_slot "duration_sec" (duration_sec d).

(** [accumulator_names or []] *)
Definition or_empty (accumulator_names : option (list string)) : list string :=
  match accumulator_names with
  | Some (n :: rest) => n :: rest
  | Some [] | None => []
  end.

(** [{name: TimeAccumulator() for name in ...}], filling [d] in order. *)
Fixpoint dict_comprehension (names : list string) (d : list (string * loc))
  : M (list (string * loc)) :=
  match names with
  | [] => ret d
  | name :: rest =>
      let* a := TimeAccumulator.new in
      dict_comprehension rest (dict_setitem d name a)
  end.

(** lines 51-54 *)
Definition __init__ (self : loc) (name : option string)
    (accumulator_names : option (list string)) (silent : bool) : M value :=
  let* _ := set_name self name in
  let* _ := set_silent self silent in
  let* d := dict_comprehension (or_empty accumulator_names) [] in
  let* _ := set_accumulators self d in
  ret VNone.

(** [DebugTimer(name, accumulator_names, silent)] *)
Definition new (name : option string) (accumulator_names : option (list string))
    (silent : bool) : M loc :=
  let* self := alloc (ObjTimer blank) in
  let* _ := __init__ self name accumulator_names silent in
  ret self.

(** [self.accumulators[key]], the lookup the docstring tells callers to use. *)
Definition accumulators_getitem (self : loc) (key : string) : M loc :=
  let* d := get_accumulators self in dict_getitem d key.

(** The unit tables of line 67 and of lines 77 and 83. *)
Definition units_own : list (Q * string) :=
  [(1e-9, "ns"); (1e-6, "us"); (1e-3, "ms"); (1, "s"); (60, "m"); (60*60, "h")]%Q.

Definition units_acc : list (Q * string) :=
  [(1e-9, "ns"); (1e-6, "μs"); (1e-3, "ms"); (1, "s"); (60, "m"); (60*60, "h")]%Q.

(** [f" '{name}' " if name is not None else ' '] *)
Definition name_clause (name : option string) : string :=
  match name with
  | Some n => " '" ++ n ++ "' "
  | None => " "
  end.

(** [f"{duration:.3f} {unit}"], on the locals the scaling loop left. *)
Definition fmt_locals (cur : option (Q * string)) : M string :=
  match cur with
  | Some (duration, unit) => ret (format_3f duration ++ " " ++ unit)
  | None => raise (UnboundLocalError "duration")
  end.

Section Methods.
Variable clock : nat -> Q.
Variable g : globals.

(** lines 57-60 *)
Definition __enter__ (self : loc) : M value :=
  let* now := time_perf_counter clock g in
  let* _ := set_start self now in
  ret (VRef self).

(** The scaling loop (lines 67-70, 77-80, 83-86).  [cur] holds the locals
    [duration] and [unit], which the code reads after the loop: they keep
    the values of the iteration that ran last, through [break] or not. *)
Fixpoint scale (units : list (Q * string)) (duration_sec : Q)
    (cur : option (Q * string)) : M (option (Q * string)) :=
  match units with
  | [] => ret cur
  | (coeff, unit) :: rest =>
      let* duration := truediv duration_sec coeff in
      let* m := load_global g "math" in
      let* v := log10 m duration in
      if int_lt_log 0 v && log_lt_int v 3
      then ret (Some (duration, unit))
      else scale rest duration_sec (Some (duration, unit))
  end.

(** The body of the loop over the accumulators, lines 75-90. *)
Definition report_accumulator (name : string) (accumulator : loc)
    (cur : option (Q * string)) : M (option (Q * string)) :=
  let* n := TimeAccumulator.get_num_calls accumulator in
  if 0 <? n then
    let* duration_sec := TimeAccumulator.get_duration accumulator in
    let* cur := scale units_acc duration_sec cur in
    let* duration_total_fmt := fmt_locals cur in
    let* d := TimeAccumulator.get_duration accumulator in
    let* n := TimeAccumulator.get_num_calls accumulator in
    let* duration_sec := truediv d (inject_Z n) in
    let* cur := scale units_acc duration_sec cur in
    let* duration_per_call_fmt := fmt_locals cur in
    let name := name_clause (Some name) in
    let* n := TimeAccumulator.get_num_calls accumulator in
    let* _ := print (tab ++ "Accumlator" ++ name ++ "took " ++ duration_total_fmt
                     ++ " out of " ++ str_of_int n ++ " calls ("
                     ++ duration_per_call_fmt ++ " per call)") in
    ret cur
  else ret cur.

(** line 74: [for name, accumulator in self.accumulators.items()] *)
Fixpoint report_accumulators (items : list (string * loc))
    (cur : option (Q * string)) : M unit :=
  match items with
  | [] => ret tt
  | (name, accumulator) :: rest =>
      let* cur := report_accumulator name accumulator cur in
      report_accumulators rest cur
  end.

(** lines 67-90, the block under [if not self.silent] *)
Definition report (self : loc) (duration_sec : Q) : M unit :=
  let* cur := scale units_own duration_sec None in
  let* duration_fmt := fmt_locals cur in
  let* nm := get_name self in
  let name := name_clause nm in
  let* _ := print ("Code block" ++ name ++ "took " ++ duration_fmt) in
  let* items := get_accumulators self in
  report_accumulators items cur.

(** lines 62-90 *)
Definition __exit__ (self : loc) : M value :=
  let* end_ := time_perf_counter clock g in
  let* s := get_start self in
  let duration_sec := (end_ - s)%Q in
  let* _ := set_duration_sec self duration_sec in
  let* silent := get_silent self in
  if negb silent then
    let* _ := report self duration_sec in
    ret VNone
  else ret VNone.

End Methods.
End DebugTimer.

(** ** The [with] statement

    [with mgr as x: body] binds [x] to what [mgr.__enter__()] returns and
    runs [mgr.__exit__(...)] on every way out of the body.  An exception of
    the body goes on to the caller unless [__exit__] returns a true value;
    an exception of [__exit__] replaces it. *)

Definition truthy (v : value) : bool :=
  match v with
  | VNone => false
  | VRef _ => true
  end.

Definition with_as (enter exit_ : M value) (body : value -> M unit) : M unit :=
  fun w =>
    match enter w with
    | (Raise e, w1) => (Raise e, w1)
    | (Ok x, w1) =>
        match body x w1 with
        | (Ok _, w2) =>
            match exit_ w2 with
            | (Ok _, w3) => (Ok tt, w3)
            | (Raise e, w3) => (Raise e, w3)
            end
        | (Raise e, w2) =>
            match exit_ w2 with
            | (Ok v, w3) => if truthy v then (Ok tt, w3) else (Raise e, w3)
            | (Raise e', w3) => (Raise e', w3)
            end
        end
    end.

(** The state [TimeAccumulator()] leaves a new accumulator in. *)
Definition fresh_acc : obj :=
  ObjAcc (TimeAccumulator_obj.mk (Some 0.0%Q) (Some 0) None).

(** [key] is one of the names given to the constructor. *)
Definition supplied (accumulator_names : option (list string)) (key : string)
  : Prop :=
  match accumulator_names with
  | Some names => In key names
  | None => False
  end.

(** ** A caller's use of one accumulator

    What a caller does around a given accumulator, as far as the
    accumulator can tell: it is acquired, it is released, or the clock is
    read by something else in between. *)

Inductive op : Type :=
| Acquire
| Release
| Tick.

Fixpoint exec_ops (clock : nat -> Q) (g : globals) (acc : loc) (ops : list op)
  : M unit :=
  match ops with
  | [] => ret tt
  | Acquire :: rest =>
      let* _ := TimeAccumulator.__enter__ clock g acc in
      exec_ops clock g acc rest
  | Release :: rest =>
      let* _ := TimeAccumulator.__exit__ clock g acc in
      exec_ops clock g acc rest
  | Tick :: rest =>
      let* _ := time_perf_counter clock g in
      exec_ops clock g acc rest
  end.

(** Acquisitions and releases alternate, an acquisition first.
    [in_flight] tells whether an acquisition is open where [ops] starts;
    [ops] may stop while one is open, so every state between two
    operations of a sequence of matched pairs is covered. *)
Fixpoint matched (in_flight : bool) (ops : list op) : bool :=
  match ops with
  | [] => true
  | Acquire :: rest => negb in_flight && matched true rest
  | Release :: rest => in_flight && matched false rest
  | Tick :: rest => matched in_flight rest
  end.

Fixpoint in_flight_after (in_flight : bool) (ops : list op) : bool :=
  match ops with
  | [] => in_flight
  | Acquire :: rest => in_flight_after true rest
  | Release :: rest => in_flight_after false rest
  | Tick :: rest => in_flight_after in_flight rest
  end.

Fixpoint acquisitions (ops : list op) : Z :=
  match ops with
  | [] => 0
  | Acquire :: rest => 1 + acquisitions rest
  | _ :: rest => acquisitions rest
  end.

(** The two durable fields of the accumulator at [acc]. *)
Definition acc_fields (w : world) (acc : loc) : option (Q * Z) :=
  match heap w !! acc with
  | Some (ObjAcc (TimeAccumulator_obj.mk (Some d) (Some n) _)) => Some (d, n)
  | _ => None
  end.

Definition monotonic (clock : nat -> Q) : Prop :=
  forall i, (clock i <= clock (S i))%Q.

(** A magnitude strictly between 1 and 1000. *)
Definition in_range (x : Q) : Prop := (1 < x)%Q /\ (x < 1000)%Q.

(** ** Sample runs *)

Definition w0 : world := World [] [] 0.

(** A heap with one accumulator and one timer, neither entered yet. *)
Definition w_one_of_each : world :=
  World [ObjAcc (TimeAccumulator_obj.mk (Some 0%Q) (Some 0) None);
         ObjTimer (DebugTimer_obj.mk (Some None) (Some false) (Some []) None None)]
        [] 0.

(** An entered timer with accumulators ["a"] (three calls, 30 ms) and
    ["b"] (never acquired), and the same with ["a"] alone. *)
Definition w_a_and_b : world :=
  World [ObjTimer (DebugTimer_obj.mk (Some (Some "loop")) (Some false)
                     (Some [("a", 1%nat); ("b", 2%nat)]) (Some 0%Q) None);
         ObjAcc (TimeAccumulator_obj.mk (Some 0.03%Q) (Some 3) (Some 0.2%Q));
         ObjAcc (TimeAccumulator_obj.mk (Some 0.0%Q) (Some 0) None)]
        [] 1.

(** An entered timer whose accumulator ["f"] has one call of 500
    microseconds. *)
Definition w_500us : world :=
  World [ObjTimer (DebugTimer_obj.mk (Some None) (Some false)
                     (Some [("f", 1%nat)]) (Some 0%Q) None);
         ObjAcc (TimeAccumulator_obj.mk (Some 500e-6%Q) (Some 1) (Some 0.1%Q))]
        [] 1.

Definition w_only_a : world :=
  World [ObjTimer (DebugTimer_obj.mk (Some (Some "loop")) (Some false)
                     (Some [("a", 1%nat)]) (Some 0%Q) None);
         ObjAcc (TimeAccumulator_obj.mk (Some 0.03%Q) (Some 3) (Some 0.2%Q));
         ObjAcc (TimeAccumulator_obj.mk (Some 0.0%Q) (Some 0) None)]
        [] 1.

(** What a caller observes of a run: the outcome and the printed lines. *)
Definition run {A} (c : M A) (w : world) : result A * list string :=
  let r := c w in (fst r, stdout (snd r)).

(** [with DebugTimer(name, accumulator_names, silent) as timer: body] *)
Definition with_DebugTimer (clock : nat -> Q) (g : globals)
    (name : option string) (accumulator_names : option (list string))
    (silent : bool) (body : value -> M unit) : M unit :=
  let* timer := DebugTimer.new name accumulator_names silent in
  with_as (DebugTimer.__enter__ clock g timer) (DebugTimer.__exit__ clock g timer) body.

(** [with timer.accumulators[key]: pass], for [timer] bound by [as]. *)
Definition with_accumulator (clock : nat -> Q) (g : globals)
    (timer : value) (key : string) : M unit :=
  match timer with
  | VNone => raise (AttributeError "accumulators")
  | VRef t =>
      let* a := DebugTimer.accumulators_getitem t key in
      with_as (TimeAccumulator.__enter__ clock g a)
              (TimeAccumulator.__exit__ clock g a) (fun _ => ret tt)
  end.

(** The docstring's "simplest possible usage": [with DebugTimer(): 1 + 2]. *)
Definition simplest_usage (clock : nat -> Q) (g : globals) : M unit :=
  with_DebugTimer clock g None None false (fun _ => ret tt).

(** A clock that is read at [t0] first and at [t1] from then on. *)
Definition clock_two (t0 t1 : Q) (n : nat) : Q :=
  match n with
  | O => t0
  | S _ => t1
  end.

(** A clock that advances by ten milliseconds between two readings. *)
Definition clock_10ms (n : nat) : Q := (inject_Z (Z.of_nat n) * 0.01)%Q.

(** [with DebugTimer(name="loop", accumulator_names=["a", "b"]) as timer:]
    three times [with timer.accumulators["a"]: pass]; ["b"] is never
    acquired. *)
Definition loop_scenario (clock : nat -> Q) (g : globals) : M unit :=
  with_DebugTimer clock g (Some "loop") (Some ["a"; "b"]) false
    (fun timer =>
       let* _ := with_accumulator clock g timer "a" in
       let* _ := with_accumulator clock g timer "a" in
       with_accumulator clock g timer "a").

(** ** Predicates of the statements *)

(** Lines 63-66 of [__exit__], which run whether or not the timer is
    silent: the duration is stored, then the flag is tested. *)
Definition stored (d : DebugTimer_obj.t) (v : Q) : DebugTimer_obj.t :=
  DebugTimer_obj.mk (DebugTimer_obj.name d) (DebugTimer_obj.silent d)
    (DebugTimer_obj.accumulators d) (DebugTimer_obj.start d) (Some v).

(** What is known of the accumulator between two operations: its fields,
    their signs, and the reading [start] holds while it is acquired. *)
Definition acc_inv (clock : nat -> Q) (in_flight : bool) (acc : loc)
    (w : world) (d : Q) (n : Z) : Prop :=
  exists s,
    heap w !! acc = Some (ObjAcc (TimeAccumulator_obj.mk (Some d) (Some n) s))
    /\ 0 <= n
    /\ (0 <= d)%Q
    /\ (n = 0 -> (d == 0)%Q)
    /\ (in_flight = true ->
        0 < n /\ exists t0, s = Some (clock t0) /\ (t0 < ticks w)%nat).

(** The accumulator a heap holds at [l], if it holds one there. *)
Definition acc_at (h : list obj) (l : loc) : option TimeAccumulator_obj.t :=
  match h !! l with
  | Some (ObjAcc a) => Some a
  | _ => None
  end.

(** On the heaps [h] and [h'] the computation [c] has the same outcome and
    prints the same text, and it changes neither heap nor the clock. *)
Definition agrees {A} (h h' : list obj) (c : M A) : Prop :=
  forall out t, exists r out',
    c (World h out t) = (r, World h out' t)
    /\ c (World h' out t) = (r, World h' out' t).

(** ** Further predicates *)


(** [w'] is [w] except for the object at [self] and for the clock: no
    other object has changed, none was created, nothing was printed. *)
Definition touches_only (self : loc) (w w' : world) : Prop :=
  stdout w' = stdout w
  /\ length (heap w') = length (heap w)
  /\ forall l, l <> self -> heap w' !! l = heap w !! l.

(** An object with the slots [start] and [duration_sec] of a timer
    blanked out: what is left of a timer is how it was constructed. *)
Definition as_constructed (o : obj) : obj :=
  match o with
  | ObjAcc a => ObjAcc a
  | ObjTimer d =>
      ObjTimer (DebugTimer_obj.mk (DebugTimer_obj.name d) (DebugTimer_obj.silent d)
                  (DebugTimer_obj.accumulators d) None None)
  end.

(** [w'] is [w] with, at most, lines added to the printed text, a later
    clock, and other values in the slots [start] and [duration_sec] of the
    timer at [self]. *)
Definition timer_touches_only (self : loc) (w w' : world) : Prop :=
  (exists lines, stdout w' = (stdout w ++ lines)%list)
  /\ length (heap w') = length (heap w)
  /\ (forall l, l <> self -> heap w' !! l = heap w !! l)
  /\ as_constructed <$> heap w' !! self = as_constructed <$> heap w !! self.

(** [c] changes no object and does not read the clock; it may print. *)
Definition reads_only {A} (c : M A) : Prop :=
  forall w, exists lines,
    snd (c w) = World (heap w) (stdout w ++ lines) (ticks w).

(** The accumulator at [l] has been acquired at least once. *)
Definition acquired (h : list obj) (l : loc) : bool :=
  match h !! l with
  | Some (ObjAcc a) =>
      match TimeAccumulator_obj.num_calls a with
      | Some n => 0 <? n
      | None => false
      end
  | _ => false
  end.

(** [l] holds an initialised accumulator, with a positive [duration] if it
    has been acquired. *)
Definition reportable (h : list obj) (l : loc) : Prop :=
  exists d n s,
    h !! l = Some (ObjAcc (TimeAccumulator_obj.mk (Some d) (Some n) s))
    /\ (0 < n -> (0 < d)%Q).

(** The timer's own line, as line 73 builds it from the label, the scaled
    magnitude and the unit. *)
Definition own_line (nm : option string) (m : Q) (u : string) : string :=
  "Code block" ++ DebugTimer.name_clause nm ++ "took " ++ format_3f m ++ " " ++ u.

(** An entered timer whose accumulator ["f"] has been acquired once at a
    clock reading that did not change until its release. *)
Definition w_no_time : world :=
  World [ObjTimer (DebugTimer_obj.mk (Some None) (Some false)
                     (Some [("f", 1%nat)]) (Some 0%Q) None);
         ObjAcc (TimeAccumulator_obj.mk (Some 0.0%Q) (Some 1) (Some 0.2%Q))]
        [] 1.

(** * Properties *)

(** ** Small facts about the monad and the heap *)

Lemma bind_ok {A B} (c : M A) (k : A -> M B) w a w' :
  c w = (Ok a, w') -> bind c k w = k a w'.
Proof. intros H. unfold bind. now rewrite H. Qed.

Lemma bind_raise {A B} (c : M A) (k : A -> M B) w e w' :
  c w = (Raise e, w') -> bind c k w = (Raise e, w').
Proof. intros H. unfold bind. now rewrite H. Qed.

Lemma get_acc_ok l w a :
  heap w !! l = Some (ObjAcc a) -> get_acc l w = (Ok a, w).
Proof. intros H. unfold get_acc. now rewrite H. Qed.

Lemma get_timer_ok l w d :
  heap w !! l = Some (ObjTimer d) -> get_timer l w = (Ok d, w).
Proof. intros H. unfold get_timer. now rewrite H. Qed.

Lemma time_perf_counter_ok clock g w :
  lookup_name "time" g = Some mod_time ->
  time_perf_counter clock g w
  = (Ok (clock (ticks w)), World (heap w) (stdout w) (S (ticks w))).
Proof.
  intros H. unfold time_perf_counter, load_global. rewrite H.
  reflexivity.
Qed.

Lemma lookup_snoc {A} (h : list A) (o : A) : (h ++ [o])%list !! length h = Some o.
Proof. now apply list_lookup_middle. Qed.

Lemma insert_snoc {A} (h : list A) (o o' : A) :
  <[length h := o']> (h ++ [o])%list = (h ++ [o'])%list.
Proof.
  replace (length h) with (length h + 0)%nat by lia.
  now rewrite insert_app_r.
Qed.

(** Symbolic execution of a method body on a heap whose relevant entries
    are known. *)
Ltac unfold_monad :=
  unfold bind, ret, raise, from_slot, store, get_acc, get_timer, print, alloc.

Ltac heap_step :=
  first
    [ progress cbn [heap stdout ticks fst snd
                    TimeAccumulator_obj.duration TimeAccumulator_obj.num_calls
                    TimeAccumulator_obj.start
                    DebugTimer_obj.name DebugTimer_obj.silent
                    DebugTimer_obj.accumulators DebugTimer_obj.start
                    DebugTimer_obj.duration_sec]
    | rewrite list_lookup_insert_eq by (rewrite ?length_insert; assumption)
    | rewrite list_insert_insert_eq
    | rewrite lookup_snoc
    | rewrite insert_snoc
    | match goal with
      | H : ?h !! ?l = Some _ |- context [?h !! ?l] => rewrite H
      end ].

Ltac exec := repeat first [ progress unfold_monad | heap_step ].

(** ** Single steps of an accumulator *)

Lemma TimeAccumulator_enter_spec clock g self w d n s :
  lookup_name "time" g = Some mod_time ->
  heap w !! self = Some (ObjAcc (TimeAccumulator_obj.mk d (Some n) s)) ->
  TimeAccumulator.__enter__ clock g self w
  = (Ok VNone,
     World (<[self := ObjAcc (TimeAccumulator_obj.mk d (Some (n + 1))
                                (Some (clock (ticks w))))]> (heap w))
           (stdout w) (S (ticks w))).
Proof.
  intros Hg Hl.
  assert (Hlt : (self < length (heap w))%nat) by (eapply lookup_lt_Some; eauto).
  unfold TimeAccumulator.__enter__, TimeAccumulator.get_num_calls,
    TimeAccumulator.set_num_calls, TimeAccumulator.set_start,
    time_perf_counter, load_global, perf_counter.
  rewrite Hg. exec. reflexivity.
Qed.

Lemma TimeAccumulator_exit_spec clock g self w d n s :
  lookup_name "time" g = Some mod_time ->
  heap w !! self = Some (ObjAcc (TimeAccumulator_obj.mk (Some d) n (Some s))) ->
  TimeAccumulator.__exit__ clock g self w
  = (Ok VNone,
     World (<[self := ObjAcc (TimeAccumulator_obj.mk
                                (Some (d + (clock (ticks w) - s))%Q) n (Some s))]>
              (heap w))
           (stdout w) (S (ticks w))).
Proof.
  intros Hg Hl.
  assert (Hlt : (self < length (heap w))%nat) by (eapply lookup_lt_Some; eauto).
  unfold TimeAccumulator.__exit__, TimeAccumulator.get_start,
    TimeAccumulator.get_duration, TimeAccumulator.set_duration,
    time_perf_counter, load_global, perf_counter.
  rewrite Hg. exec. reflexivity.
Qed.

Lemma TimeAccumulator_new_spec w :
  TimeAccumulator.new w
  = (Ok (length (heap w)),
     World (heap w ++ [fresh_acc]) (stdout w) (ticks w)).
Proof.
  unfold TimeAccumulator.new, TimeAccumulator.__init__,
    TimeAccumulator.set_duration, TimeAccumulator.set_num_calls.
  exec. reflexivity.
Qed.

(** ** Single steps of a timer *)

Lemma DebugTimer_enter_spec clock g self w d :
  lookup_name "time" g = Some mod_time ->
  heap w !! self = Some (ObjTimer d) ->
  DebugTimer.__enter__ clock g self w
  = (Ok (VRef self),
     World (<[self := ObjTimer (DebugTimer_obj.mk
                (DebugTimer_obj.name d) (DebugTimer_obj.silent d)
                (DebugTimer_obj.accumulators d) (Some (clock (ticks w)))
                (DebugTimer_obj.duration_sec d))]> (heap w))
           (stdout w) (S (ticks w))).
Proof.
  intros Hg Hl.
  unfold DebugTimer.__enter__, DebugTimer.set_start,
    time_perf_counter, load_global, perf_counter.
  rewrite Hg. exec. reflexivity.
Qed.

Lemma DebugTimer_exit_unfold clock g self w d s b :
  lookup_name "time" g = Some mod_time ->
  heap w !! self = Some (ObjTimer d) ->
  DebugTimer_obj.silent d = Some b ->
  DebugTimer_obj.start d = Some s ->
  let duration_sec := (clock (ticks w) - s)%Q in
  let w1 := World (<[self := ObjTimer (stored d duration_sec)]> (heap w))
                  (stdout w) (S (ticks w)) in
  DebugTimer.__exit__ clock g self w
  = if b then (Ok VNone, w1)
    else bind (DebugTimer.report g self duration_sec) (fun _ => ret VNone) w1.
Proof.
  intros Hg Hl Hsil Hst.
  assert (Hlt : (self < length (heap w))%nat) by (eapply lookup_lt_Some; eauto).
  unfold DebugTimer.__exit__, DebugTimer.get_start, DebugTimer.set_duration_sec,
    DebugTimer.get_silent, time_perf_counter, load_global, perf_counter, stored.
  destruct d as [nm sil accs st ds]. cbn in Hsil, Hst. subst sil st.
  rewrite Hg. exec. destruct b; reflexivity.
Qed.

Lemma DebugTimer_exit_silent_spec clock g self w d s :
  lookup_name "time" g = Some mod_time ->
  heap w !! self = Some (ObjTimer d) ->
  DebugTimer_obj.silent d = Some true ->
  DebugTimer_obj.start d = Some s ->
  DebugTimer.__exit__ clock g self w
  = (Ok VNone,
     World (<[self := ObjTimer (stored d (clock (ticks w) - s)%Q)]> (heap w))
           (stdout w) (S (ticks w))).
Proof.
  intros Hg Hl Hsil Hst.
  now rewrite (DebugTimer_exit_unfold clock g self w d s true).
Qed.

(** C7. A timer whose [silent] flag is true prints nothing on release: the
    printed text is what it was before, release returns normally, and
    [duration_sec] holds the clock reading at release minus [start] and can
    be read afterwards. *)
Theorem C7_silent_release_prints_nothing clock self w d s :
  heap w !! self = Some (ObjTimer d) ->
  DebugTimer_obj.silent d = Some true ->
  DebugTimer_obj.start d = Some s ->
  let r := DebugTimer.__exit__ clock module_globals self w in
  fst r = Ok VNone
  /\ stdout (snd r) = stdout w
  /\ fst (DebugTimer.get_duration_sec self (snd r)) = Ok (clock (ticks w) - s)%Q.
Proof.
  intros Hl Hsil Hst.
  assert (Hlt : (self < length (heap w))%nat) by (eapply lookup_lt_Some; eauto).
  cbv zeta.
  rewrite (DebugTimer_exit_silent_spec clock module_globals self w d s)
    by (reflexivity || assumption).
  cbn [fst snd stdout]. repeat split.
  unfold DebugTimer.get_duration_sec. exec. reflexivity.
Qed.

(** ** Release of a timer that is not silent, in the module as written *)

Lemma report_as_written self v w :
  DebugTimer.report module_globals self v w = (Raise (NameError "math"), w).
Proof. reflexivity. Qed.

Lemma DebugTimer_exit_loud_as_written clock self w d s :
  heap w !! self = Some (ObjTimer d) ->
  DebugTimer_obj.silent d = Some false ->
  DebugTimer_obj.start d = Some s ->
  DebugTimer.__exit__ clock module_globals self w
  = (Raise (NameError "math"),
     World (<[self := ObjTimer (stored d (clock (ticks w) - s)%Q)]> (heap w))
           (stdout w) (S (ticks w))).
Proof.
  intros Hl Hsil Hst.
  rewrite (DebugTimer_exit_unfold clock module_globals self w d s false)
    by (reflexivity || assumption).
  cbv zeta. unfold bind at 1. now rewrite report_as_written.
Qed.

(** C1. The docstring's simplest usage, a timer that is not silent around
    a block that does nothing, does not complete: release raises
    [NameError] for the name [math], which the module never imports, and
    nothing is printed. *)
Theorem C1_release_raises_NameError :
  run (simplest_usage (clock_two 0 1.5) module_globals) w0
  = (Raise (NameError "math"), []).
Proof. vm_compute. reflexivity. Qed.

(** With [math] bound the same run completes and prints its line. *)
Example simplest_usage_with_math :
  run (simplest_usage (clock_two 0 1.5) globals_with_math) w0
  = (Ok tt, ["Code block took 1.500 s"]).
Proof. vm_compute. reflexivity. Qed.

(** C2. A duration of exactly 0 seconds does not fall through to hours:
    release raises [NameError] in the module as written and, with [math]
    bound, [ValueError] from [math.log10(0.0)]; nothing is printed either
    way. *)
Theorem C2_zero_duration_raises :
  run (simplest_usage (clock_two 7 7) module_globals) w0
  = (Raise (NameError "math"), [])
  /\ run (simplest_usage (clock_two 7 7) globals_with_math) w0
     = (Raise (ValueError "math domain error"), []).
Proof. split; vm_compute; reflexivity. Qed.

(** With [math] bound, a positive duration that no unit scales into
    (1, 1000) is rendered in hours: here a picosecond. *)
Example picosecond_with_math :
  run (simplest_usage (clock_two 0 1e-12) globals_with_math) w0
  = (Ok tt, ["Code block took 0.000 h"]).
Proof. vm_compute. reflexivity. Qed.

(** C3. A duration of exactly 1000 nanoseconds is not rendered as
    [1.000 us]: release raises [NameError] in the module as written and,
    with [math] bound, no unit passes the test (the magnitude is 1000 in
    nanoseconds and 1 in microseconds) and the line reads [0.000 h]. *)
Theorem C3_boundary_1000ns :
  run (simplest_usage (clock_two 0 1e-6) module_globals) w0
  = (Raise (NameError "math"), [])
  /\ run (simplest_usage (clock_two 0 1e-6) globals_with_math) w0
     = (Ok tt, ["Code block took 0.000 h"]).
Proof. split; vm_compute; reflexivity. Qed.

(** C4. In the loop scenario the accumulator ["a"] has three calls of ten
    milliseconds each.  In the module as written release raises
    [NameError] before any line is printed.  With [math] bound its line is
    printed with the word spelled [Accumlator], so it is not the line
    [	Accumulator 'a' took 30.000 ms out of 3 calls (10.000 ms per call)]. *)
Theorem C4_accumulator_line :
  run (loop_scenario clock_10ms module_globals) w0
  = (Raise (NameError "math"), [])
  /\ (exists line,
        run (loop_scenario clock_10ms globals_with_math) w0
        = (Ok tt, ["Code block 'loop' took 70.000 ms"; line])
        /\ line = tab ++ "Accumlator 'a' took 30.000 ms out of 3 calls (10.000 ms per call)"
        /\ line <> tab ++ "Accumulator 'a' took 30.000 ms out of 3 calls (10.000 ms per call)").
Proof.
  split; [vm_compute; reflexivity |].
  eexists. split; [vm_compute; reflexivity |].
  split; [vm_compute; reflexivity | vm_compute; discriminate].
Qed.

(** C5. Durations of 500 nanoseconds, 500 microseconds, 500 milliseconds
    and 500 seconds select no unit in the module as written: each release
    raises [NameError] for [math] and prints nothing. *)
Theorem C5_units_500_as_written :
  Forall (fun d => run (simplest_usage (clock_two 0 d) module_globals) w0
                   = (Raise (NameError "math"), []))
         [500e-9; 500e-6; 500e-3; 500]%Q.
Proof. repeat constructor. Qed.

(** With [math] bound they select [ns], [us], [ms] and [s]. *)
Example units_500_with_math :
  map (fun d => run (simplest_usage (clock_two 0 d) globals_with_math) w0)
      [500e-9; 500e-6; 500e-3; 500]%Q
  = [(Ok tt, ["Code block took 500.000 ns"]);
     (Ok tt, ["Code block took 500.000 us"]);
     (Ok tt, ["Code block took 500.000 ms"]);
     (Ok tt, ["Code block took 500.000 s"])].
Proof. vm_compute. reflexivity. Qed.

(** ** Scope entry: what [as] binds *)

(** C10. Entering an accumulator returns [None], entering a timer returns
    the timer itself; so the body of [with acc as x] runs with [x] bound to
    [None], and the body of [with timer as x] with [x] bound to the
    timer. *)
Theorem C10_enter_handles clock w acc timer a n d :
  heap w !! acc = Some (ObjAcc a) ->
  TimeAccumulator_obj.num_calls a = Some n ->
  heap w !! timer = Some (ObjTimer d) ->
  fst (TimeAccumulator.__enter__ clock module_globals acc w) = Ok VNone
  /\ fst (DebugTimer.__enter__ clock module_globals timer w) = Ok (VRef timer)
  /\ (forall body,
        with_as (TimeAccumulator.__enter__ clock module_globals acc)
                (TimeAccumulator.__exit__ clock module_globals acc) body w
        = with_as (TimeAccumulator.__enter__ clock module_globals acc)
                  (TimeAccumulator.__exit__ clock module_globals acc)
                  (fun _ => body VNone) w)
  /\ (forall body,
        with_as (DebugTimer.__enter__ clock module_globals timer)
                (DebugTimer.__exit__ clock module_globals timer) body w
        = with_as (DebugTimer.__enter__ clock module_globals timer)
                  (DebugTimer.__exit__ clock module_globals timer)
                  (fun _ => body (VRef timer)) w).
Proof.
  intros Ha Hn Ht.
  destruct a as [du nc st]. cbn in Hn. subst nc.
  pose proof (TimeAccumulator_enter_spec clock module_globals acc w du n st
                eq_refl Ha) as Ea.
  pose proof (DebugTimer_enter_spec clock module_globals timer w d eq_refl Ht) as Et.
  repeat split.
  - now rewrite Ea.
  - now rewrite Et.
  - intros body. unfold with_as. now rewrite Ea.
  - intros body. unfold with_as. now rewrite Et.
Qed.

Lemma C10_enter_handles_witness :
  fst (TimeAccumulator.__enter__ (clock_two 0 1) module_globals 0%nat w_one_of_each)
  = Ok VNone
  /\ fst (DebugTimer.__enter__ (clock_two 0 1) module_globals 1%nat w_one_of_each)
     = Ok (VRef 1%nat).
Proof.
  pose proof (C10_enter_handles (clock_two 0 1) w_one_of_each 0%nat 1%nat
                (TimeAccumulator_obj.mk (Some 0%Q) (Some 0) None) 0
                (DebugTimer_obj.mk (Some None) (Some false) (Some []) None None)
                eq_refl eq_refl eq_refl) as [H1 [H2 _]].
  exact (conj H1 H2).
Defined.

Lemma C7_silent_release_witness :
  let w := World [ObjTimer (DebugTimer_obj.mk (Some None) (Some true) (Some [])
                              (Some 2%Q) None)] [] 1 in
  let r := DebugTimer.__exit__ (clock_two 2 5) module_globals 0%nat w in
  fst r = Ok VNone
  /\ stdout (snd r) = []
  /\ fst (DebugTimer.get_duration_sec 0%nat (snd r)) = Ok (5 - 2)%Q.
Proof.
  exact (C7_silent_release_prints_nothing (clock_two 2 5) 0%nat
           (World [ObjTimer (DebugTimer_obj.mk (Some None) (Some true) (Some [])
                               (Some 2%Q) None)] [] 1)
           (DebugTimer_obj.mk (Some None) (Some true) (Some []) (Some 2%Q) None)
           2%Q eq_refl eq_refl eq_refl).
Defined.

(** ** Dictionaries *)

Lemma lookup_setitem_eq {V} (d : list (string * V)) k v :
  lookup_name k (dict_setitem d k v) = Some v.
Proof.
  induction d as [|[k' v'] d IH]; cbn.
  - now rewrite String.eqb_refl.
  - destruct (String.eqb k' k) eqn:E; cbn; now rewrite E.
Qed.

Lemma lookup_setitem_ne {V} (d : list (string * V)) k k' v :
  k <> k' -> lookup_name k' (dict_setitem d k v) = lookup_name k' d.
Proof.
  intros Hne. induction d as [|[k0 v0] d IH]; cbn.
  - destruct (String.eqb k k') eqn:E; [|reflexivity].
    apply String.eqb_eq in E. contradiction.
  - destruct (String.eqb k0 k) eqn:E; cbn.
    + apply String.eqb_eq in E. subst k0.
      destruct (String.eqb k k') eqn:E'; [|reflexivity].
      apply String.eqb_eq in E'. contradiction.
    + now rewrite IH.
Qed.

Lemma lookup_name_In {V} (d : list (string * V)) k v :
  lookup_name k d = Some v -> In (k, v) d.
Proof.
  induction d as [|[k' v'] d IH]; cbn; [discriminate|].
  destruct (String.eqb k' k) eqn:E.
  - apply String.eqb_eq in E. intros [= ->]. subst. left. reflexivity.
  - intros H. right. now apply IH.
Qed.

Lemma setitem_values {V} (d : list (string * V)) k v x :
  In x (map snd (dict_setitem d k v)) -> x = v \/ In x (map snd d).
Proof.
  induction d as [|[k' v'] d IH]; cbn.
  - intros [<-|[]]. now left.
  - destruct (String.eqb k' k); cbn.
    + intros [<-|H]; [now left | right; now right].
    + intros [<-|H]; [right; now left |].
      destruct (IH H) as [->|H']; [now left | right; now right].
Qed.

Lemma setitem_NoDup {V} (d : list (string * V)) k v :
  List.NoDup (map snd d) -> ~ In v (map snd d) ->
  List.NoDup (map snd (dict_setitem d k v)).
Proof.
  induction d as [|[k' v'] d IH]; cbn; intros Hnd Hv.
  - constructor; [intros [] | constructor].
  - apply List.NoDup_cons_iff in Hnd as [Hv' Hnd].
    destruct (String.eqb k' k); cbn.
    + apply List.NoDup_cons_iff. split; [|exact Hnd].
      intros H. apply Hv. now right.
    + apply List.NoDup_cons_iff. split.
      * intros H.
        destruct (setitem_values _ _ _ _ H) as [->|H'].
        -- apply Hv. now left.
        -- now apply Hv'.
      * apply IH; [exact Hnd | intros H; apply Hv; now right].
Qed.

Lemma NoDup_values_key {V} (d : list (string * V)) k k' v :
  List.NoDup (map snd d) -> In (k, v) d -> In (k', v) d -> k = k'.
Proof.
  induction d as [|[k0 v0] d IH]; cbn; [intros _ []|].
  intros Hnd H1 H2. apply List.NoDup_cons_iff in Hnd as [Hv Hnd].
  destruct H1 as [E1|H1], H2 as [E2|H2].
  - congruence.
  - exfalso. injection E1 as -> ->. apply Hv. now apply (in_map snd) in H2.
  - exfalso. injection E2 as -> ->. apply Hv. now apply (in_map snd) in H1.
  - now apply IH.
Qed.

(** ** Construction of a timer *)

Lemma dict_comprehension_spec names :
  forall d w,
  exists d',
    DebugTimer.dict_comprehension names d w
    = (Ok d', World (heap w ++ replicate (length names) fresh_acc)
                    (stdout w) (ticks w))
    /\ (forall k, In k names ->
          exists l, lookup_name k d' = Some l
                    /\ (length (heap w) <= l < length (heap w) + length names)%nat)
    /\ (forall k, ~ In k names -> lookup_name k d' = lookup_name k d)
    /\ (List.NoDup (map snd d) ->
        (forall l, In l (map snd d) -> (l < length (heap w))%nat) ->
        List.NoDup (map snd d')
        /\ forall l, In l (map snd d') ->
                     (l < length (heap w) + length names)%nat).
Proof.
  induction names as [|n rest IH]; intros d w.
  - exists d. cbn [DebugTimer.dict_comprehension length replicate].
    rewrite app_nil_r. destruct w as [h o t]. cbn.
    split; [reflexivity|]. split; [intros k []|]. split; [reflexivity|].
    intros Hd Hlt. split; [exact Hd|].
    intros l Hl. rewrite Nat.add_0_r. now apply Hlt.
  - cbn [DebugTimer.dict_comprehension].
    rewrite (bind_ok _ _ _ _ _ (TimeAccumulator_new_spec w)).
    destruct (IH (dict_setitem d n (length (heap w)))
                 (World (heap w ++ [fresh_acc]) (stdout w) (ticks w)))
      as (d' & Hrun & Hin & Hout & Hnd).
    cbn [heap stdout ticks] in *.
    rewrite length_app in *. cbn [length] in *.
    exists d'. split; [|split; [|split]].
    + rewrite Hrun. rewrite <- app_assoc. reflexivity.
    + intros k Hk.
      destruct (in_dec string_dec k rest) as [Hr|Hr].
      * destruct (Hin k Hr) as (l & Hl & Hrange). exists l. split; [exact Hl | lia].
      * destruct Hk as [->|Hk]; [|contradiction].
        exists (length (heap w)). rewrite (Hout k Hr), lookup_setitem_eq.
        split; [reflexivity | lia].
    + intros k Hk.
      rewrite Hout by (intros H; apply Hk; now right).
      apply lookup_setitem_ne. intros ->. apply Hk. now left.
    + intros Hd Hlt.
      destruct Hnd as [Hnd Hbound].
      * apply setitem_NoDup; [exact Hd |].
        intros H. apply Hlt in H. lia.
      * intros l Hl. destruct (setitem_values _ _ _ _ Hl) as [->|Hl'].
        -- lia.
        -- apply Hlt in Hl'. lia.
      * split; [exact Hnd |]. intros l Hl. apply Hbound in Hl. lia.
Qed.

Lemma insert_middle {A} (h r : list A) (x y : A) :
  <[length h := y]> (h ++ x :: r)%list = (h ++ y :: r)%list.
Proof.
  replace (length h) with (length h + 0)%nat by lia.
  now rewrite insert_app_r.
Qed.

Lemma DebugTimer_new_spec name accumulator_names silent w :
  let names := DebugTimer.or_empty accumulator_names in
  exists d,
    DebugTimer.new name accumulator_names silent w
    = (Ok (length (heap w)),
       World (heap w
              ++ ObjTimer (DebugTimer_obj.mk (Some name) (Some silent) (Some d)
                             None None)
              :: replicate (length names) fresh_acc)
             (stdout w) (ticks w))
    /\ (forall k, In k names ->
          exists l, lookup_name k d = Some l
                    /\ (length (heap w) < l <= length (heap w) + length names)%nat)
    /\ (forall k, ~ In k names -> lookup_name k d = None)
    /\ List.NoDup (map snd d).
Proof.
  intros names.
  unfold DebugTimer.new, DebugTimer.__init__, DebugTimer.set_name,
    DebugTimer.set_silent, DebugTimer.set_accumulators.
  fold names.
  set (w1 := World (heap w ++ [ObjTimer (DebugTimer_obj.mk (Some name)
                       (Some silent) None None None)]) (stdout w) (ticks w)).
  destruct (dict_comprehension_spec names [] w1) as (d & Hrun & Hin & Hout & Hnd).
  exists d. split; [|split; [|split]].
  - unfold bind at 1. unfold alloc at 1. cbn [heap stdout ticks].
    unfold bind at 1. unfold bind at 1.
    unfold bind at 1. unfold get_timer at 1. cbn [heap stdout ticks].
    rewrite lookup_snoc. unfold store at 1. cbn [heap stdout ticks].
    rewrite insert_snoc.
    unfold bind at 1. unfold bind at 1. unfold get_timer at 1.
    cbn [heap stdout ticks]. rewrite lookup_snoc.
    unfold store at 1. cbn [heap stdout ticks]. rewrite insert_snoc.
    cbn [DebugTimer_obj.name DebugTimer_obj.silent DebugTimer_obj.accumulators
         DebugTimer_obj.start DebugTimer_obj.duration_sec DebugTimer_obj.blank].
    fold w1. unfold bind at 1. rewrite Hrun.
    subst w1. cbn [heap stdout ticks]. rewrite <- app_assoc. cbn [app].
    unfold bind, get_timer, store, ret. cbn [heap stdout ticks].
    rewrite list_lookup_middle by reflexivity.
    cbn [heap stdout ticks DebugTimer_obj.name DebugTimer_obj.silent
         DebugTimer_obj.start DebugTimer_obj.duration_sec].
    rewrite insert_middle. reflexivity.
  - intros k Hk. destruct (Hin k Hk) as (l & Hl & Hrange).
    exists l. split; [exact Hl|].
    cbn [w1 heap] in Hrange. rewrite length_app in Hrange. cbn in Hrange. lia.
  - intros k Hk. now rewrite (Hout k Hk).
  - apply Hnd; [constructor | intros l []].
Qed.

Lemma supplied_or_empty accumulator_names key :
  supplied accumulator_names key <-> In key (DebugTimer.or_empty accumulator_names).
Proof. destruct accumulator_names as [[|n rest]|]; cbn; tauto. Qed.

(** C6. After [DebugTimer(name, accumulator_names, silent)], looking up a
    key in [timer.accumulators] raises [KeyError] when the key is not among
    the names supplied, however many were; for a supplied name it returns
    an accumulator that this constructor created (it was not in the heap
    before), in its initial state, and that no other key of the timer
    leads to. *)
Theorem C6_accumulator_lookup name accumulator_names silent w key :
  exists timer w',
    DebugTimer.new name accumulator_names silent w = (Ok timer, w')
    /\ (~ supplied accumulator_names key ->
        DebugTimer.accumulators_getitem timer key w' = (Raise (KeyError key), w'))
    /\ (supplied accumulator_names key ->
        exists a,
          DebugTimer.accumulators_getitem timer key w' = (Ok a, w')
          /\ heap w' !! a = Some fresh_acc
          /\ heap w !! a = None
          /\ forall key',
               DebugTimer.accumulators_getitem timer key' w' = (Ok a, w') ->
               key' = key).
Proof.
  destruct (DebugTimer_new_spec name accumulator_names silent w)
    as (d & Hnew & Hin & Hout & Hnd).
  cbv zeta in *.
  set (names := DebugTimer.or_empty accumulator_names) in *.
  eexists _, _. split; [exact Hnew|].
  assert (Hget : forall k,
    DebugTimer.accumulators_getitem (length (heap w)) k
      (World (heap w ++ ObjTimer (DebugTimer_obj.mk (Some name) (Some silent)
                                    (Some d) None None)
              :: replicate (length names) fresh_acc) (stdout w) (ticks w))
    = dict_getitem d k
      (World (heap w ++ ObjTimer (DebugTimer_obj.mk (Some name) (Some silent)
                                    (Some d) None None)
              :: replicate (length names) fresh_acc) (stdout w) (ticks w))).
  { intros k. unfold DebugTimer.accumulators_getitem, DebugTimer.get_accumulators.
    unfold bind, get_timer, from_slot, ret. cbn [heap stdout ticks].
    rewrite list_lookup_middle by reflexivity. reflexivity. }
  split.
  - intros Hk. rewrite Hget. unfold dict_getitem.
    rewrite Hout; [reflexivity|].
    intros H. apply Hk. now apply supplied_or_empty.
  - intros Hk. apply supplied_or_empty in Hk.
    destruct (Hin key Hk) as (l & Hl & Hrange).
    exists l. rewrite Hget. unfold dict_getitem. rewrite Hl.
    split; [reflexivity|]. cbn [heap]. split; [|split].
    + rewrite lookup_app_r by lia.
      destruct (l - length (heap w))%nat as [|i] eqn:E; [lia|].
      cbn. apply lookup_replicate_2. lia.
    + apply lookup_ge_None. lia.
    + intros key' H. rewrite Hget in H. unfold dict_getitem in H.
      destruct (lookup_name key' d) as [l'|] eqn:E; [|discriminate].
      injection H as ->.
      apply (NoDup_values_key d key' key l Hnd); apply lookup_name_In; assumption.
Qed.

Lemma C6_accumulator_lookup_witness :
  exists timer w',
    DebugTimer.new (Some "loop") (Some ["a"; "b"]) false w0 = (Ok timer, w')
    /\ DebugTimer.accumulators_getitem timer "c" w' = (Raise (KeyError "c"), w')
    /\ exists a, DebugTimer.accumulators_getitem timer "b" w' = (Ok a, w')
                 /\ heap w' !! a = Some fresh_acc.
Proof.
  destruct (C6_accumulator_lookup (Some "loop") (Some ["a"; "b"]) false w0 "c")
    as (timer & w' & Hnew & Hout & _).
  destruct (C6_accumulator_lookup (Some "loop") (Some ["a"; "b"]) false w0 "b")
    as (timer2 & w2 & Hnew2 & _ & Hin).
  rewrite Hnew in Hnew2. injection Hnew2 as <- <-.
  exists timer, w'. split; [exact Hnew|]. split.
  - apply Hout. cbn. intros [H|[H|[]]]; discriminate H.
  - destruct Hin as (a & Ha & Hfresh & _); [cbn; right; left; reflexivity|].
    exists a. split; assumption.
Defined.

(** ** An accumulator over its life *)

Lemma monotonic_le clock i j :
  monotonic clock -> (i <= j)%nat -> (clock i <= clock j)%Q.
Proof.
  intros Hm Hij. induction Hij as [|j Hij IH].
  - apply Qle_refl.
  - eapply Qle_trans; [exact IH | apply Hm].
Qed.

Lemma exec_ops_inv clock acc :
  monotonic clock ->
  forall ops in_flight w d n,
    matched in_flight ops = true ->
    acc_inv clock in_flight acc w d n ->
    exists w' d',
      exec_ops clock module_globals acc ops w = (Ok tt, w')
      /\ acc_inv clock (in_flight_after in_flight ops) acc w' d'
           (n + acquisitions ops)
      /\ (d <= d')%Q.
Proof.
  intros Hmono. induction ops as [|o ops IH]; intros b w d n Hm Hinv.
  - exists w, d. cbn. rewrite Z.add_0_r. repeat split; [exact Hinv | apply Qle_refl].
  - destruct Hinv as (s & Hl & Hn & Hd & Hz & Hs).
    assert (Hlt : (acc < length (heap w))%nat) by (eapply lookup_lt_Some; eauto).
    destruct o; cbn [matched] in Hm; cbn [exec_ops in_flight_after acquisitions].
    + (* Acquire *)
      apply andb_prop in Hm as [Hb Hm]. apply negb_true_iff in Hb. subst b.
      rewrite (bind_ok _ _ _ _ _
                 (TimeAccumulator_enter_spec clock module_globals acc w
                    (Some d) n s eq_refl Hl)).
      match goal with |- context [exec_ops _ _ _ _ ?x] => set (w1 := x) end.
      assert (Hinv1 : acc_inv clock true acc w1 d (n + 1)).
      { exists (Some (clock (ticks w))). subst w1. cbn [heap ticks].
        rewrite list_lookup_insert_eq by exact Hlt.
        split; [reflexivity|]. split; [lia|]. split; [exact Hd|].
        split; [intros; lia|]. intros _. split; [lia|].
        exists (ticks w). split; [reflexivity | lia]. }
      destruct (IH true w1 d (n + 1) Hm Hinv1) as (w' & d' & Hrun & Hinv' & Hle).
      exists w', d'. rewrite Hrun.
      replace (n + (1 + acquisitions ops)) with (n + 1 + acquisitions ops) by lia.
      repeat split; assumption.
    + (* Release *)
      apply andb_prop in Hm as [Hb Hm]. subst b.
      destruct (Hs eq_refl) as (Hpos & t0 & -> & Ht0).
      rewrite (bind_ok _ _ _ _ _
                 (TimeAccumulator_exit_spec clock module_globals acc w
                    d (Some n) (clock t0) eq_refl Hl)).
      assert (Hnow : (clock t0 <= clock (ticks w))%Q)
        by (apply monotonic_le; [exact Hmono | lia]).
      match goal with |- context [exec_ops _ _ _ _ ?x] => set (w1 := x) end.
      assert (Hinv1 : acc_inv clock false acc w1
                        (d + (clock (ticks w) - clock t0))%Q n).
      { exists (Some (clock t0)). subst w1. cbn [heap ticks].
        rewrite list_lookup_insert_eq by exact Hlt.
        split; [reflexivity|]. split; [lia|]. split; [lra|].
        split; [intros; lia | discriminate]. }
      destruct (IH false w1 _ n Hm Hinv1) as (w' & d' & Hrun & Hinv' & Hle).
      exists w', d'. rewrite Hrun. repeat split; [assumption | lra].
    + (* Tick *)
      rewrite (bind_ok _ _ _ _ _
                 (time_perf_counter_ok clock module_globals w eq_refl)).
      match goal with |- context [exec_ops _ _ _ _ ?x] => set (w1 := x) end.
      assert (Hinv1 : acc_inv clock b acc w1 d n).
      { exists s. subst w1. cbn [heap ticks].
        split; [exact Hl|]. split; [exact Hn|]. split; [exact Hd|].
        split; [exact Hz|]. intros Hb.
        destruct (Hs Hb) as (Hpos & t0 & Hs0 & Ht0).
        split; [exact Hpos|]. exists t0. split; [exact Hs0 | lia]. }
      destruct (IH b w1 d n Hm Hinv1) as (w' & d' & Hrun & Hinv' & Hle).
      exists w', d'. rewrite Hrun. repeat split; assumption.
Qed.

Lemma matched_app ops1 : forall in_flight ops2,
  matched in_flight (ops1 ++ ops2)
  = matched in_flight ops1 && matched (in_flight_after in_flight ops1) ops2.
Proof.
  induction ops1 as [|o ops1 IH]; intros b ops2; [reflexivity|].
  destruct o; cbn [app matched in_flight_after]; rewrite IH;
    now rewrite ?andb_assoc.
Qed.

Lemma acquisitions_app ops1 ops2 :
  acquisitions (ops1 ++ ops2) = acquisitions ops1 + acquisitions ops2.
Proof.
  induction ops1 as [|o ops1 IH]; [reflexivity|].
  destruct o; cbn [app acquisitions]; lia.
Qed.

Lemma acquisitions_nonneg ops : 0 <= acquisitions ops.
Proof. induction ops as [|o ops IH]; [reflexivity|]. destruct o; cbn; lia. Qed.

Lemma exec_ops_app clock g acc ops1 : forall ops2 w w',
  exec_ops clock g acc ops1 w = (Ok tt, w') ->
  exec_ops clock g acc (ops1 ++ ops2) w = exec_ops clock g acc ops2 w'.
Proof.
  induction ops1 as [|o ops1 IH]; intros ops2 w w' H.
  - cbn in H. now injection H as ->.
  - destruct o; cbn [app exec_ops] in *; unfold bind in *;
      match goal with
      | H : context [let (_, _) := ?c in _] |- _ =>
          destruct c as [[v|e] w1]; [|discriminate H]
      end; now apply IH.
Qed.

Lemma acc_inv_fields clock b acc w d n :
  acc_inv clock b acc w d n -> acc_fields w acc = Some (d, n).
Proof. intros (s & Hl & _). unfold acc_fields. now rewrite Hl. Qed.

(** C8. A new accumulator has duration 0.0 and no calls.  After any
    sequence of matched acquisitions and releases, under a monotonic
    clock, [num_calls] is the number of acquisitions so far, [duration] is
    not negative, and [duration] is 0 while [num_calls] is 0; the same
    holds after every initial part of the sequence, where moreover
    [duration] and [num_calls] are at most what they are at the end. *)
Theorem C8_accumulator_invariants clock w ops :
  monotonic clock ->
  matched false ops = true ->
  exists acc w1 w2 d,
    TimeAccumulator.new w = (Ok acc, w1)
    /\ acc_fields w1 acc = Some (0.0%Q, 0)
    /\ exec_ops clock module_globals acc ops w1 = (Ok tt, w2)
    /\ acc_fields w2 acc = Some (d, acquisitions ops)
    /\ (0 <= d)%Q
    /\ (acquisitions ops = 0 -> (d == 0)%Q)
    /\ forall ops1 ops2,
         ops = (ops1 ++ ops2)%list ->
         exists w' d1,
           exec_ops clock module_globals acc ops1 w1 = (Ok tt, w')
           /\ acc_fields w' acc = Some (d1, acquisitions ops1)
           /\ (0 <= d1)%Q
           /\ (acquisitions ops1 = 0 -> (d1 == 0)%Q)
           /\ (d1 <= d)%Q
           /\ acquisitions ops1 <= acquisitions ops.
Proof.
  intros Hmono Hm.
  set (acc := length (heap w)).
  set (w1 := World (heap w ++ [fresh_acc]) (stdout w) (ticks w)).
  assert (Hinv0 : acc_inv clock false acc w1 0.0%Q 0).
  { exists None. subst w1 acc. cbn [heap]. rewrite lookup_snoc.
    split; [reflexivity|]. split; [lia|]. split; [discriminate|].
    split; [reflexivity | discriminate]. }
  destruct (exec_ops_inv clock acc Hmono ops false w1 _ 0 Hm Hinv0)
    as (w2 & d & Hrun & Hinv & Hle).
  rewrite Z.add_0_l in Hinv.
  exists acc, w1, w2, d.
  split; [apply TimeAccumulator_new_spec|].
  split; [exact (acc_inv_fields _ _ _ _ _ _ Hinv0)|].
  split; [exact Hrun|].
  split; [exact (acc_inv_fields _ _ _ _ _ _ Hinv)|].
  destruct Hinv as (s & Hl & Hn & Hd & Hz & Hs).
  split; [exact Hd|]. split; [exact Hz|].
  intros ops1 ops2 ->.
  rewrite matched_app in Hm. apply andb_prop in Hm as [Hm1 Hm2].
  destruct (exec_ops_inv clock acc Hmono ops1 false w1 _ 0 Hm1 Hinv0)
    as (w' & d1 & Hrun1 & Hinv1 & Hle1).
  rewrite Z.add_0_l in Hinv1.
  destruct (exec_ops_inv clock acc Hmono ops2 _ w' d1 _ Hm2 Hinv1)
    as (w'' & d2 & Hrun2 & Hinv2 & Hle2).
  rewrite (exec_ops_app _ _ _ _ _ _ _ Hrun1), Hrun2 in Hrun.
  injection Hrun as <-.
  destruct Hinv2 as (s2 & Hl2 & _). rewrite Hl2 in Hl. injection Hl as <- _ _.
  exists w', d1.
  split; [exact Hrun1|].
  split; [exact (acc_inv_fields _ _ _ _ _ _ Hinv1)|].
  destruct Hinv1 as (s1 & _ & _ & Hd1 & Hz1 & _).
  split; [exact Hd1|]. split; [exact Hz1|]. split; [exact Hle2|].
  rewrite acquisitions_app. pose proof (acquisitions_nonneg ops2). lia.
Qed.

(** ** The report reads accumulators only *)

Lemma agrees_pure {A} h h' (c : M A) r :
  (forall w, c w = (r, w)) -> agrees h h' c.
Proof. intros H out t. exists r, out. now rewrite !H. Qed.

Lemma agrees_bind {A B} h h' (c : M A) (k : A -> M B) :
  agrees h h' c -> (forall a, agrees h h' (k a)) -> agrees h h' (bind c k).
Proof.
  intros Hc Hk out t. destruct (Hc out t) as (r & out1 & E1 & E2).
  unfold bind. rewrite E1, E2. destruct r as [a|e].
  - apply Hk.
  - now exists (Raise e), out1.
Qed.

Lemma agrees_ret {A} h h' (a : A) : agrees h h' (ret a).
Proof. now apply (agrees_pure _ _ _ (Ok a)). Qed.

Lemma agrees_raise {A} h h' e : agrees h h' (@raise A e).
Proof. now apply (agrees_pure _ _ _ (Raise e)). Qed.

Lemma agrees_from_slot {A} h h' attr (o : option A) : agrees h h' (from_slot attr o).
Proof. destruct o; [apply agrees_ret | apply agrees_raise]. Qed.

Lemma agrees_print h h' line : agrees h h' (print line).
Proof. intros out t. now exists (Ok tt), (out ++ [line])%list. Qed.

Lemma agrees_get_acc h h' l :
  acc_at h l = acc_at h' l -> agrees h h' (get_acc l).
Proof.
  intros H out t. unfold get_acc, acc_at in *. cbn [heap].
  destruct (h !! l) as [[a|d]|], (h' !! l) as [[a'|d']|];
    try discriminate H; try (injection H as ->); eexists _, out; split; reflexivity.
Qed.

Lemma agrees_load_global h h' g name : agrees h h' (load_global g name).
Proof.
  unfold load_global. destruct (lookup_name name g);
    [apply agrees_ret | apply agrees_raise].
Qed.

Lemma agrees_log10 h h' m x : agrees h h' (log10 m x).
Proof.
  unfold log10. destruct m; [apply agrees_raise|].
  destruct (Qle_bool x 0); [apply agrees_raise | apply agrees_ret].
Qed.

Lemma agrees_truediv h h' x y : agrees h h' (truediv x y).
Proof.
  unfold truediv. destruct (Qeq_bool y 0); [apply agrees_raise | apply agrees_ret].
Qed.

Lemma agrees_fmt_locals h h' cur : agrees h h' (DebugTimer.fmt_locals cur).
Proof.
  unfold DebugTimer.fmt_locals. destruct cur as [[du u]|];
    [apply agrees_ret | apply agrees_raise].
Qed.

Lemma agrees_scale h h' g units : forall v cur,
  agrees h h' (DebugTimer.scale g units v cur).
Proof.
  induction units as [|[coeff unit] rest IH]; intros v cur; cbn [DebugTimer.scale].
  - apply agrees_ret.
  - apply agrees_bind; [apply agrees_truediv | intros du].
    apply agrees_bind; [apply agrees_load_global | intros m].
    apply agrees_bind; [apply agrees_log10 | intros lv].
    destruct (int_lt_log 0 lv && log_lt_int lv 3); [apply agrees_ret | apply IH].
Qed.

Create HintDb agrees_db.
#[local] Hint Resolve agrees_ret agrees_raise agrees_from_slot agrees_print
  agrees_get_acc agrees_truediv agrees_fmt_locals agrees_scale : agrees_db.

Lemma agrees_report_accumulator h h' g name acc cur :
  acc_at h acc = acc_at h' acc ->
  agrees h h' (DebugTimer.report_accumulator g name acc cur).
Proof.
  intros H.
  unfold DebugTimer.report_accumulator, TimeAccumulator.get_num_calls,
    TimeAccumulator.get_duration.
  repeat first
    [ apply agrees_bind; [auto with agrees_db | intros ?]
    | match goal with |- agrees _ _ (if ?b then _ else _) => destruct b end
    | solve [auto with agrees_db] ].
Qed.

Lemma agrees_report_accumulators h h' g items :
  (forall l, acc_at h l = acc_at h' l) ->
  forall cur, agrees h h' (DebugTimer.report_accumulators g items cur).
Proof.
  intros H. induction items as [|[name acc] rest IH]; intros cur;
    cbn [DebugTimer.report_accumulators].
  - apply agrees_ret.
  - apply agrees_bind; [now apply agrees_report_accumulator | intros cur'; apply IH].
Qed.

(** ** Accumulators that were never acquired *)

Lemma report_accumulator_skip g name acc cur w a :
  heap w !! acc = Some (ObjAcc a) ->
  TimeAccumulator_obj.num_calls a = Some 0 ->
  DebugTimer.report_accumulator g name acc cur w = (Ok cur, w).
Proof.
  intros Hl Hn.
  unfold DebugTimer.report_accumulator, TimeAccumulator.get_num_calls.
  unfold bind at 1. unfold bind at 1. rewrite (get_acc_ok _ _ _ Hl), Hn.
  reflexivity.
Qed.

Lemma report_accumulators_skip g key acc a items2 items1 :
  TimeAccumulator_obj.num_calls a = Some 0 ->
  forall cur h out t,
    h !! acc = Some (ObjAcc a) ->
    DebugTimer.report_accumulators g (items1 ++ (key, acc) :: items2) cur
      (World h out t)
    = DebugTimer.report_accumulators g (items1 ++ items2) cur (World h out t).
Proof.
  intros Hn. induction items1 as [|[k1 a1] items1 IH]; intros cur h out t Hl.
  - cbn [app DebugTimer.report_accumulators].
    now rewrite (bind_ok _ _ _ _ _
                   (report_accumulator_skip g key acc cur (World h out t) a Hl Hn)).
  - cbn [app DebugTimer.report_accumulators]. unfold bind.
    destruct (agrees_report_accumulator h h g k1 a1 cur eq_refl out t)
      as (r & out' & E & _).
    rewrite E. destruct r as [cur'|e]; [now apply IH | reflexivity].
Qed.

Lemma get_name_at self h out t d :
  h !! self = Some (ObjTimer d) ->
  DebugTimer.get_name self (World h out t)
  = from_slot "name" (DebugTimer_obj.name d) (World h out t).
Proof.
  intros H. unfold DebugTimer.get_name.
  now rewrite (bind_ok _ _ _ _ _ (get_timer_ok self (World h out t) d H)).
Qed.

Lemma get_accumulators_at self h out t d :
  h !! self = Some (ObjTimer d) ->
  DebugTimer.get_accumulators self (World h out t)
  = from_slot "accumulators" (DebugTimer_obj.accumulators d) (World h out t).
Proof.
  intros H. unfold DebugTimer.get_accumulators.
  now rewrite (bind_ok _ _ _ _ _ (get_timer_ok self (World h out t) d H)).
Qed.

Lemma run_then_ret {A B} (c : M A) (v : B) w1 w2 :
  run c w1 = run c w2 ->
  run (bind c (fun _ => ret v)) w1 = run (bind c (fun _ => ret v)) w2.
Proof.
  unfold run, bind, ret.
  destruct (c w1) as [[a1|e1] w1'], (c w2) as [[a2|e2] w2']; cbn;
    intros H; inversion H; subst; reflexivity.
Qed.

Ltac step_agrees H :=
  let r := fresh "r" in
  let o := fresh "out" in
  let E1 := fresh "E" in
  let E2 := fresh "E" in
  destruct H as (r & o & E1 & E2);
  destruct r;
  [ rewrite (bind_ok _ _ _ _ _ E1), (bind_ok _ _ _ _ _ E2); cbv beta
  | rewrite (bind_raise _ _ _ _ _ E1), (bind_raise _ _ _ _ _ E2); reflexivity ].

(** The report of two timers that differ in their [accumulators] only, on
    heaps with the same accumulators, differs only as the loops over the
    two dictionaries do. *)
Lemma report_two_heaps g self v h1 h2 d1 d2 its1 its2 :
  h1 !! self = Some (ObjTimer d1) ->
  h2 !! self = Some (ObjTimer d2) ->
  DebugTimer_obj.name d1 = DebugTimer_obj.name d2 ->
  DebugTimer_obj.accumulators d1 = Some its1 ->
  DebugTimer_obj.accumulators d2 = Some its2 ->
  (forall cur out t,
     run (DebugTimer.report_accumulators g its1 cur) (World h1 out t)
     = run (DebugTimer.report_accumulators g its2 cur) (World h2 out t)) ->
  forall out t,
    run (DebugTimer.report g self v) (World h1 out t)
    = run (DebugTimer.report g self v) (World h2 out t).
Proof.
  intros H1 H2 Hname Hits1 Hits2 Hloop out t.
  unfold run, DebugTimer.report.
  step_agrees (agrees_scale h1 h2 g DebugTimer.units_own v None out t).
  match goal with
  | |- context [bind (DebugTimer.fmt_locals ?c) _ (World h1 ?o ?t')] =>
      step_agrees (agrees_fmt_locals h1 h2 c o t')
  end.
  assert (N1 : forall o t', DebugTimer.get_name self (World h1 o t')
                = from_slot "name" (DebugTimer_obj.name d1) (World h1 o t'))
    by (intros; now apply get_name_at).
  assert (N2 : forall o t', DebugTimer.get_name self (World h2 o t')
                = from_slot "name" (DebugTimer_obj.name d1) (World h2 o t'))
    by (intros; rewrite Hname; now apply get_name_at).
  assert (A1 : forall o t', DebugTimer.get_accumulators self (World h1 o t')
                = (Ok its1, World h1 o t'))
    by (intros; rewrite (get_accumulators_at self h1 _ _ d1 H1), Hits1; reflexivity).
  assert (A2 : forall o t', DebugTimer.get_accumulators self (World h2 o t')
                = (Ok its2, World h2 o t'))
    by (intros; rewrite (get_accumulators_at self h2 _ _ d2 H2), Hits2; reflexivity).
  destruct (DebugTimer_obj.name d1) as [nm|].
  - rewrite (bind_ok _ _ _ _ _ (N1 _ _)), (bind_ok _ _ _ _ _ (N2 _ _)). cbv beta.
    rewrite (bind_ok (print _) _ (World h1 _ _) tt _ eq_refl).
    rewrite (bind_ok (print _) _ (World h2 _ _) tt _ eq_refl).
    cbn [heap stdout ticks].
    rewrite (bind_ok _ _ _ _ _ (A1 _ _)), (bind_ok _ _ _ _ _ (A2 _ _)).
    apply Hloop.
  - rewrite (bind_raise _ _ _ _ _ (N1 _ _)), (bind_raise _ _ _ _ _ (N2 _ _)).
    reflexivity.
Qed.

(** C9. Release of a timer gives the same outcome and prints the same
    lines as it would if an accumulator whose [num_calls] is 0 were not in
    [accumulators] at all: no line is printed for it and it causes no
    error. *)
Theorem C9_never_acquired_omitted clock g self w d s b items1 key acc items2 a :
  lookup_name "time" g = Some mod_time ->
  heap w !! self = Some (ObjTimer d) ->
  DebugTimer_obj.silent d = Some b ->
  DebugTimer_obj.start d = Some s ->
  DebugTimer_obj.accumulators d = Some (items1 ++ (key, acc) :: items2)%list ->
  heap w !! acc = Some (ObjAcc a) ->
  TimeAccumulator_obj.num_calls a = Some 0 ->
  let d' := DebugTimer_obj.mk (DebugTimer_obj.name d) (DebugTimer_obj.silent d)
              (Some (items1 ++ items2)%list) (DebugTimer_obj.start d)
              (DebugTimer_obj.duration_sec d) in
  let w' := World (<[self := ObjTimer d']> (heap w)) (stdout w) (ticks w) in
  run (DebugTimer.__exit__ clock g self) w
  = run (DebugTimer.__exit__ clock g self) w'.
Proof.
  intros Hg Hself Hsil Hst Hitems Hacc Hn d' w'.
  assert (Hlt : (self < length (heap w))%nat) by (eapply lookup_lt_Some; eauto).
  assert (Hne : acc <> self) by (intros ->; rewrite Hself in Hacc; discriminate).
  assert (Hself' : heap w' !! self = Some (ObjTimer d'))
    by (subst w'; cbn [heap]; now apply list_lookup_insert_eq).
  unfold run.
  rewrite (DebugTimer_exit_unfold clock g self w d s b Hg Hself Hsil Hst).
  rewrite (DebugTimer_exit_unfold clock g self w' d' s b Hg Hself' Hsil Hst).
  cbv zeta. destruct b; [reflexivity|].
  subst w'. cbn [heap stdout ticks]. rewrite list_insert_insert_eq.
  set (v := (clock (ticks w) - s)%Q).
  set (h1 := <[self := ObjTimer (stored d v)]> (heap w)).
  set (h2 := <[self := ObjTimer (stored d' v)]> (heap w)).
  assert (Hsame : forall l, acc_at h1 l = acc_at h2 l).
  { intros l. unfold acc_at. subst h1 h2.
    destruct (decide (l = self)) as [->|Hl].
    - now rewrite !list_lookup_insert_eq by exact Hlt.
    - now rewrite !list_lookup_insert_ne by congruence. }
  assert (Hacc1 : h1 !! acc = Some (ObjAcc a))
    by (subst h1; now rewrite list_lookup_insert_ne by congruence).
  apply (run_then_ret (DebugTimer.report g self v) VNone
           (World h1 (stdout w) (S (ticks w))) (World h2 (stdout w) (S (ticks w)))).
  apply (report_two_heaps g self v h1 h2 (stored d v) (stored d' v)
           (items1 ++ (key, acc) :: items2) (items1 ++ items2)).
  - subst h1. now apply list_lookup_insert_eq.
  - subst h2. now apply list_lookup_insert_eq.
  - reflexivity.
  - exact Hitems.
  - reflexivity.
  - intros cur out t. unfold run.
    rewrite (report_accumulators_skip g key acc a items2 items1 Hn cur h1 out t Hacc1).
    destruct (agrees_report_accumulators h1 h2 g (items1 ++ items2) Hsame cur out t)
      as (r & out' & G1 & G2).
    now rewrite G1, G2.
Qed.

(** ** The scaling loop when [math] is bound *)

(** The timer's own line abbreviates microseconds as [us], the lines of
    the accumulators as [μs]. *)
Example microseconds_with_math :
  run (DebugTimer.__exit__ (clock_two 0 600e-6) globals_with_math 0%nat) w_500us
  = (Ok VNone,
     ["Code block took 600.000 us";
      tab ++ "Accumlator 'f' took 500.000 μs out of 1 calls (500.000 μs per call)"]).
Proof. vm_compute. reflexivity. Qed.

Lemma Qltb_lt x y : Qltb x y = true <-> (x < y)%Q.
Proof.
  unfold Qltb. rewrite negb_true_iff. split.
  - intros H. apply Qnot_le_lt. intros Hle.
    apply Qle_bool_iff in Hle. congruence.
  - intros H. destruct (Qle_bool y x) eqn:E; [|reflexivity].
    apply Qle_bool_iff in E. exfalso. now apply (Qlt_not_le x y).
Qed.

Lemma test_in_range x :
  int_lt_log 0 (Log10 x) && log_lt_int (Log10 x) 3 = true <-> in_range x.
Proof.
  unfold int_lt_log, log_lt_int, in_range. cbn [antilog].
  rewrite andb_true_iff, !Qltb_lt. reflexivity.
Qed.

Lemma scale_step g coeff unit rest v cur w :
  lookup_name "math" g = Some mod_math ->
  (0 < v)%Q -> (0 < coeff)%Q ->
  DebugTimer.scale g ((coeff, unit) :: rest) v cur w
  = if int_lt_log 0 (Log10 (v / coeff)) && log_lt_int (Log10 (v / coeff)) 3
    then (Ok (Some ((v / coeff)%Q, unit)), w)
    else DebugTimer.scale g rest v (Some ((v / coeff)%Q, unit)) w.
Proof.
  intros Hg Hv Hc. cbn [DebugTimer.scale].
  unfold truediv, load_global. rewrite Hg.
  assert (Hc0 : Qeq_bool coeff 0 = false).
  { destruct (Qeq_bool coeff 0) eqn:E; [|reflexivity].
    apply Qeq_bool_iff in E. rewrite E in Hc. now apply Qlt_irrefl in Hc. }
  rewrite Hc0. unfold bind at 1. unfold bind at 1. unfold ret at 1 2.
  unfold bind at 1. unfold log10.
  assert (Hpos : Qle_bool (v / coeff) 0 = false).
  { destruct (Qle_bool (v / coeff) 0) eqn:E; [|reflexivity].
    apply Qle_bool_iff in E. exfalso.
    apply (Qlt_not_le 0 (v / coeff)); [|exact E].
    apply Qlt_shift_div_l; [exact Hc | now rewrite Qmult_0_l]. }
  rewrite Hpos. unfold ret at 1.
  destruct (int_lt_log 0 (Log10 (v / coeff)) && log_lt_int (Log10 (v / coeff)) 3);
    reflexivity.
Qed.


(** When no unit passes, the locals keep the values of the last
    iteration: the last unit of the table. *)
Lemma scale_fall_through g units coeff unit v cur w :
  lookup_name "math" g = Some mod_math ->
  (0 < v)%Q ->
  Forall (fun cu => (0 < fst cu)%Q) (units ++ [(coeff, unit)]) ->
  Forall (fun cu => ~ in_range (v / fst cu)) (units ++ [(coeff, unit)]) ->
  DebugTimer.scale g (units ++ [(coeff, unit)]) v cur w
  = (Ok (Some ((v / coeff)%Q, unit)), w).
Proof.
  intros Hg Hv. revert cur.
  induction units as [|[c u] units IH]; intros cur Hpos Hno; cbn [app] in *.
  - apply List.Forall_cons_iff in Hpos as [Hc _]. apply List.Forall_cons_iff in Hno as [Hn _].
    rewrite scale_step by assumption.
    destruct (int_lt_log 0 (Log10 (v / coeff)) && log_lt_int (Log10 (v / coeff)) 3) eqn:E.
    + reflexivity.
    + reflexivity.
  - apply List.Forall_cons_iff in Hpos as [Hc Hpos]. apply List.Forall_cons_iff in Hno as [Hn Hno].
    rewrite scale_step by assumption.
    destruct (int_lt_log 0 (Log10 (v / c)) && log_lt_int (Log10 (v / c)) 3) eqn:E.
    + apply test_in_range in E. contradiction.
    + now apply IH.
Qed.

(** A duration that is not positive stops the loop at its first
    iteration with [ValueError]. *)
Lemma scale_not_positive g coeff unit rest v cur w :
  lookup_name "math" g = Some mod_math ->
  (v <= 0)%Q -> (0 < coeff)%Q ->
  DebugTimer.scale g ((coeff, unit) :: rest) v cur w
  = (Raise (ValueError "math domain error"), w).
Proof.
  intros Hg Hv Hc. cbn [DebugTimer.scale].
  unfold truediv, load_global. rewrite Hg.
  assert (Hc0 : Qeq_bool coeff 0 = false).
  { destruct (Qeq_bool coeff 0) eqn:E; [|reflexivity].
    apply Qeq_bool_iff in E. rewrite E in Hc. now apply Qlt_irrefl in Hc. }
  rewrite Hc0. unfold bind at 1. unfold bind at 1. unfold ret at 1 2.
  unfold bind at 1. unfold log10.
  assert (Hneg : Qle_bool (v / coeff) 0 = true).
  { apply Qle_bool_iff. apply Qle_shift_div_r; [exact Hc | now rewrite Qmult_0_l]. }
  now rewrite Hneg.
Qed.

(** ** Instances *)

Lemma clock_10ms_monotonic : monotonic clock_10ms.
Proof.
  intros i. unfold clock_10ms.
  apply Qmult_le_compat_r; [|discriminate].
  rewrite <- Zle_Qle. lia.
Qed.

Lemma C8_accumulator_invariants_witness :
  exists acc w1 w2 d,
    TimeAccumulator.new w0 = (Ok acc, w1)
    /\ exec_ops clock_10ms module_globals acc
         [Acquire; Release; Tick; Acquire; Tick; Release; Acquire] w1 = (Ok tt, w2)
    /\ acc_fields w2 acc = Some (d, 3)
    /\ (0 <= d)%Q.
Proof.
  destruct (C8_accumulator_invariants clock_10ms w0
              [Acquire; Release; Tick; Acquire; Tick; Release; Acquire]
              clock_10ms_monotonic eq_refl)
    as (acc & w1 & w2 & d & Hnew & _ & Hrun & Hf & Hd & _).
  exists acc, w1, w2, d. repeat split; assumption.
Defined.

Lemma C9_never_acquired_omitted_witness :
  run (DebugTimer.__exit__ (clock_two 0 0.5) globals_with_math 0%nat) w_a_and_b
  = run (DebugTimer.__exit__ (clock_two 0 0.5) globals_with_math 0%nat) w_only_a.
Proof.
  exact (C9_never_acquired_omitted (clock_two 0 0.5) globals_with_math 0%nat
           w_a_and_b
           (DebugTimer_obj.mk (Some (Some "loop")) (Some false)
              (Some [("a", 1%nat); ("b", 2%nat)]) (Some 0%Q) None)
           0%Q false [("a", 1%nat)] "b" 2%nat []
           (TimeAccumulator_obj.mk (Some 0.0%Q) (Some 0) None)
           eq_refl eq_refl eq_refl eq_refl eq_refl eq_refl eq_refl).
Defined.

(** The two runs of the witness, evaluated: one line for ["a"], none for
    ["b"]. *)
Example report_a_and_b :
  run (DebugTimer.__exit__ (clock_two 0 0.5) globals_with_math 0%nat) w_a_and_b
  = (Ok VNone,
     ["Code block 'loop' took 500.000 ms";
      tab ++ "Accumlator 'a' took 30.000 ms out of 3 calls (10.000 ms per call)"]).
Proof. vm_compute. reflexivity. Qed.

(** * Further properties of the two classes *)

(** ** Misuse of an accumulator *)

(** Releasing an accumulator that was never acquired raises
    [AttributeError]: the slot [start] has no value yet.  The clock has
    been read by then; the accumulator is left as it was. *)
Theorem TimeAccumulator_exit_before_enter clock g self w d n :
  lookup_name "time" g = Some mod_time ->
  heap w !! self = Some (ObjAcc (TimeAccumulator_obj.mk d n None)) ->
  TimeAccumulator.__exit__ clock g self w
  = (Raise (AttributeError "start"), World (heap w) (stdout w) (S (ticks w))).
Proof.
  intros Hg Hl.
  unfold TimeAccumulator.__exit__, TimeAccumulator.get_start,
    time_perf_counter, load_global, perf_counter.
  rewrite Hg. exec. reflexivity.
Qed.

Lemma TimeAccumulator_exit_before_enter_witness :
  run (let* a := TimeAccumulator.new in
       TimeAccumulator.__exit__ (clock_two 0 1) module_globals a) w0
  = (Raise (AttributeError "start"), []).
Proof.
  unfold run. rewrite (bind_ok _ _ _ _ _ (TimeAccumulator_new_spec w0)).
  rewrite (TimeAccumulator_exit_before_enter (clock_two 0 1) module_globals
             (length (heap w0))
             (World (heap w0 ++ [fresh_acc]) (stdout w0) (ticks w0))
             (Some 0.0%Q) (Some 0) eq_refl eq_refl).
  reflexivity.
Defined.

(** Release keeps [start]: a second release with no acquisition in between
    succeeds and adds the time since that same acquisition once more. *)
Theorem TimeAccumulator_release_twice clock g self w d n s :
  lookup_name "time" g = Some mod_time ->
  heap w !! self = Some (ObjAcc (TimeAccumulator_obj.mk (Some d) n (Some s))) ->
  exec_ops clock g self [Release; Release] w
  = (Ok tt,
     World (<[self := ObjAcc (TimeAccumulator_obj.mk
                (Some (d + (clock (ticks w) - s) + (clock (S (ticks w)) - s))%Q)
                n (Some s))]> (heap w))
           (stdout w) (S (S (ticks w)))).
Proof.
  intros Hg Hl.
  assert (Hlt : (self < length (heap w))%nat) by (eapply lookup_lt_Some; eauto).
  cbn [exec_ops].
  rewrite (bind_ok _ _ _ _ _ (TimeAccumulator_exit_spec clock g self w d n s Hg Hl)).
  erewrite bind_ok.
  2:{ eapply TimeAccumulator_exit_spec; [exact Hg|]. cbn [heap].
      now apply list_lookup_insert_eq. }
  cbn [heap stdout ticks]. now rewrite list_insert_insert_eq.
Qed.

Lemma TimeAccumulator_release_twice_witness :
  exec_ops clock_10ms module_globals 0%nat [Release; Release]
    (World [ObjAcc (TimeAccumulator_obj.mk (Some 0%Q) (Some 1) (Some 0%Q))] [] 1)
  = (Ok tt,
     World [ObjAcc (TimeAccumulator_obj.mk
                      (Some (0 + (clock_10ms 1 - 0) + (clock_10ms 2 - 0))%Q)
                      (Some 1) (Some 0%Q))] [] 3).
Proof.
  exact (TimeAccumulator_release_twice clock_10ms module_globals 0%nat
           (World [ObjAcc (TimeAccumulator_obj.mk (Some 0%Q) (Some 1) (Some 0%Q))] [] 1)
           0%Q (Some 1) 0%Q eq_refl eq_refl).
Defined.

(** An acquisition while one is open overwrites [start]: both releases
    that follow measure from the second acquisition, and the reading of
    the first one is lost. *)
Theorem TimeAccumulator_nested_acquire clock g self w d n s :
  lookup_name "time" g = Some mod_time ->
  heap w !! self = Some (ObjAcc (TimeAccumulator_obj.mk (Some d) (Some n) s)) ->
  let t := ticks w in
  exec_ops clock g self [Acquire; Acquire; Release; Release] w
  = (Ok tt,
     World (<[self := ObjAcc (TimeAccumulator_obj.mk
                (Some (d + (clock (2 + t)%nat - clock (S t))
                         + (clock (3 + t)%nat - clock (S t)))%Q)
                (Some (n + 1 + 1)) (Some (clock (S t))))]> (heap w))
           (stdout w) (4 + t)%nat).
Proof.
  intros Hg Hl t. subst t.
  assert (Hlt : (self < length (heap w))%nat) by (eapply lookup_lt_Some; eauto).
  cbn [exec_ops].
  rewrite (bind_ok _ _ _ _ _ (TimeAccumulator_enter_spec clock g self w _ n s Hg Hl)).
  erewrite bind_ok.
  2:{ eapply TimeAccumulator_enter_spec; [exact Hg|]. cbn [heap].
      now apply list_lookup_insert_eq. }
  cbn [heap stdout ticks]. rewrite list_insert_insert_eq.
  erewrite bind_ok.
  2:{ eapply TimeAccumulator_exit_spec; [exact Hg|]. cbn [heap].
      now apply list_lookup_insert_eq. }
  cbn [heap stdout ticks]. rewrite list_insert_insert_eq.
  erewrite bind_ok.
  2:{ eapply TimeAccumulator_exit_spec; [exact Hg|]. cbn [heap].
      now apply list_lookup_insert_eq. }
  cbn [heap stdout ticks]. rewrite list_insert_insert_eq.
  reflexivity.
Qed.

Lemma TimeAccumulator_nested_acquire_witness :
  exists d,
    acc_fields (snd (exec_ops clock_10ms module_globals 0%nat
                       [Acquire; Acquire; Release; Release]
                       (World [fresh_acc] [] 0))) 0%nat = Some (d, 2)
    /\ (d == 0.03)%Q.
Proof.
  rewrite (TimeAccumulator_nested_acquire clock_10ms module_globals 0%nat
             (World [fresh_acc] [] 0) 0.0%Q 0 None eq_refl eq_refl).
  eexists. split; [reflexivity | reflexivity].
Defined.

(** ** What an accumulator measures *)




(** ** What the methods leave alone *)

Lemma touches_only_refl self w : touches_only self w w.
Proof. repeat split. Qed.

Lemma touches_only_trans self w1 w2 w3 :
  touches_only self w1 w2 -> touches_only self w2 w3 -> touches_only self w1 w3.
Proof.
  intros (Ho & Hn & Hl) (Ho' & Hn' & Hl'). repeat split; try congruence.
  intros l Hne. now rewrite Hl', Hl.
Qed.

Lemma touches_only_bind {A B} self (c : M A) (k : A -> M B) :
  (forall w, touches_only self w (snd (c w))) ->
  (forall a w, touches_only self w (snd (k a w))) ->
  forall w, touches_only self w (snd (bind c k w)).
Proof.
  intros Hc Hk w. unfold bind. specialize (Hc w).
  destruct (c w) as [[a|e] w1]; cbn [snd] in *; [|exact Hc].
  eapply touches_only_trans; [exact Hc | apply Hk].
Qed.

Lemma touches_only_get_acc self l w : touches_only self w (snd (get_acc l w)).
Proof.
  unfold get_acc. destruct (heap w !! l) as [[a|d]|]; apply touches_only_refl.
Qed.

Lemma touches_only_from_slot {A} self attr (o : option A) w :
  touches_only self w (snd (from_slot attr o w)).
Proof. destruct o; apply touches_only_refl. Qed.

Lemma touches_only_store self o w : touches_only self w (snd (store self o w)).
Proof.
  unfold store. cbn [snd]. repeat split; cbn [heap stdout].
  - apply length_insert.
  - intros l Hne. apply list_lookup_insert_ne. congruence.
Qed.

Lemma touches_only_perf_counter self clock g w :
  touches_only self w (snd (time_perf_counter clock g w)).
Proof.
  unfold time_perf_counter, load_global, bind.
  destruct (lookup_name "time" g) as [[|]|]; cbn; repeat split.
Qed.

Lemma touches_only_ret {A} self (a : A) w : touches_only self w (snd (ret a w)).
Proof. apply touches_only_refl. Qed.

Ltac touches :=
  repeat first
    [ apply touches_only_perf_counter
    | apply touches_only_get_acc
    | apply touches_only_from_slot
    | apply touches_only_store
    | apply touches_only_ret
    | apply touches_only_bind; [intros ?|intros ? ?] ].

(** Acquiring or releasing an accumulator, whether it succeeds or raises,
    prints nothing, creates no object and changes no object other than
    the accumulator itself. *)
Theorem TimeAccumulator_touches_only_self clock g self w :
  touches_only self w (snd (TimeAccumulator.__enter__ clock g self w))
  /\ touches_only self w (snd (TimeAccumulator.__exit__ clock g self w)).
Proof.
  split; revert w.
  - unfold TimeAccumulator.__enter__, TimeAccumulator.get_num_calls,
      TimeAccumulator.set_num_calls, TimeAccumulator.set_start. touches.
  - unfold TimeAccumulator.__exit__, TimeAccumulator.get_start,
      TimeAccumulator.get_duration, TimeAccumulator.set_duration. touches.
Qed.

Lemma reads_only_bind {A B} (c : M A) (k : A -> M B) :
  reads_only c -> (forall a, reads_only (k a)) -> reads_only (bind c k).
Proof.
  intros Hc Hk w. unfold bind. destruct (Hc w) as (l1 & E1).
  destruct (c w) as [[a|e] w1]; cbn [snd] in *; subst w1.
  - destruct (Hk a (World (heap w) (stdout w ++ l1) (ticks w))) as (l2 & E2).
    exists (l1 ++ l2)%list. rewrite E2. cbn [heap stdout ticks].
    now rewrite app_assoc.
  - now exists l1.
Qed.

Lemma reads_only_quiet {A} (c : M A) : (forall w, snd (c w) = w) -> reads_only c.
Proof.
  intros H w. exists []. rewrite H, app_nil_r. now destruct w.
Qed.

Lemma reads_only_ret {A} (a : A) : reads_only (ret a).
Proof. now apply reads_only_quiet. Qed.

Lemma reads_only_raise {A} e : reads_only (@raise A e).
Proof. now apply reads_only_quiet. Qed.

Lemma reads_only_from_slot {A} attr (o : option A) : reads_only (from_slot attr o).
Proof. destruct o; now apply reads_only_quiet. Qed.

Lemma reads_only_get_acc l : reads_only (get_acc l).
Proof.
  apply reads_only_quiet. intros w. unfold get_acc.
  now destruct (heap w !! l) as [[a|d]|].
Qed.

Lemma reads_only_get_timer l : reads_only (get_timer l).
Proof.
  apply reads_only_quiet. intros w. unfold get_timer.
  now destruct (heap w !! l) as [[a|d]|].
Qed.

Lemma reads_only_print line : reads_only (print line).
Proof. intros w. now exists [line]. Qed.

Lemma reads_only_load_global g name : reads_only (load_global g name).
Proof.
  unfold load_global. destruct (lookup_name name g);
    [apply reads_only_ret | apply reads_only_raise].
Qed.

Lemma reads_only_log10 m x : reads_only (log10 m x).
Proof.
  unfold log10. destruct m; [apply reads_only_raise|].
  destruct (Qle_bool x 0); [apply reads_only_raise | apply reads_only_ret].
Qed.

Lemma reads_only_truediv x y : reads_only (truediv x y).
Proof.
  unfold truediv. destruct (Qeq_bool y 0);
    [apply reads_only_raise | apply reads_only_ret].
Qed.

Lemma reads_only_fmt_locals cur : reads_only (DebugTimer.fmt_locals cur).
Proof.
  destruct cur as [[m u]|]; [apply reads_only_ret | apply reads_only_raise].
Qed.

Lemma reads_only_scale g units : forall v cur,
  reads_only (DebugTimer.scale g units v cur).
Proof.
  induction units as [|[coeff unit] rest IH]; intros v cur; cbn [DebugTimer.scale].
  - apply reads_only_ret.
  - apply reads_only_bind; [apply reads_only_truediv | intros m].
    apply reads_only_bind; [apply reads_only_load_global | intros md].
    apply reads_only_bind; [apply reads_only_log10 | intros lv].
    destruct (int_lt_log 0 lv && log_lt_int lv 3); [apply reads_only_ret | apply IH].
Qed.

Create HintDb reads_db.
#[local] Hint Resolve reads_only_ret reads_only_raise reads_only_from_slot
  reads_only_get_acc reads_only_get_timer reads_only_print reads_only_truediv
  reads_only_fmt_locals reads_only_scale : reads_db.

Ltac reads :=
  repeat first
    [ solve [auto with reads_db]
    | apply reads_only_bind; [|intros ?]
    | match goal with |- reads_only (if ?b then _ else _) => destruct b end ].

Lemma reads_only_report_accumulator g name acc cur :
  reads_only (DebugTimer.report_accumulator g name acc cur).
Proof.
  unfold DebugTimer.report_accumulator, TimeAccumulator.get_num_calls,
    TimeAccumulator.get_duration. reads.
Qed.

Lemma reads_only_report_accumulators g items : forall cur,
  reads_only (DebugTimer.report_accumulators g items cur).
Proof.
  induction items as [|[name acc] rest IH]; intros cur;
    cbn [DebugTimer.report_accumulators].
  - apply reads_only_ret.
  - apply reads_only_bind; [apply reads_only_report_accumulator | intros c; apply IH].
Qed.

Lemma reads_only_report g self v : reads_only (DebugTimer.report g self v).
Proof.
  unfold DebugTimer.report, DebugTimer.get_name, DebugTimer.get_accumulators.
  reads. apply reads_only_report_accumulators.
Qed.

Lemma timer_touches_only_refl self w : timer_touches_only self w w.
Proof. split; [exists []; now rewrite app_nil_r | repeat split]. Qed.

Lemma timer_touches_only_trans self w1 w2 w3 :
  timer_touches_only self w1 w2 -> timer_touches_only self w2 w3 ->
  timer_touches_only self w1 w3.
Proof.
  intros ((l1 & Ho) & Hn & Hl & Hc) ((l2 & Ho') & Hn' & Hl' & Hc').
  split; [|split; [|split]]; try congruence.
  - exists (l1 ++ l2)%list. now rewrite Ho', Ho, app_assoc.
  - intros l Hne. now rewrite Hl', Hl.
Qed.

Lemma timer_touches_only_reads {A} self (c : M A) w :
  reads_only c -> timer_touches_only self w (snd (c w)).
Proof.
  intros H. destruct (H w) as (lines & E). rewrite E.
  split; [now exists lines | repeat split].
Qed.

Lemma timer_touches_only_bind {A B} self (c : M A) (k : A -> M B) :
  (forall w, timer_touches_only self w (snd (c w))) ->
  (forall a w, timer_touches_only self w (snd (k a w))) ->
  forall w, timer_touches_only self w (snd (bind c k w)).
Proof.
  intros Hc Hk w. unfold bind. specialize (Hc w).
  destruct (c w) as [[a|e] w1]; cbn [snd] in *; [|exact Hc].
  eapply timer_touches_only_trans; [exact Hc | apply Hk].
Qed.

Lemma timer_touches_only_perf_counter self clock g w :
  timer_touches_only self w (snd (time_perf_counter clock g w)).
Proof.
  unfold time_perf_counter, load_global, bind.
  destruct (lookup_name "time" g) as [[|]|]; cbn;
    (split; [exists []; now rewrite app_nil_r | repeat split]).
Qed.

Lemma timer_touches_only_set_start self v w :
  timer_touches_only self w (snd (DebugTimer.set_start self v w)).
Proof.
  unfold DebugTimer.set_start, bind, get_timer, store.
  destruct (heap w !! self) as [[a|d]|] eqn:E; cbn [snd];
    try apply timer_touches_only_refl.
  assert (Hlt : (self < length (heap w))%nat) by (eapply lookup_lt_Some; eauto).
  split; [exists []; now rewrite app_nil_r|]. cbn [heap].
  split; [apply length_insert|]. split.
  - intros l Hne. apply list_lookup_insert_ne. congruence.
  - rewrite list_lookup_insert_eq by exact Hlt. now rewrite E.
Qed.

Lemma timer_touches_only_set_duration_sec self v w :
  timer_touches_only self w (snd (DebugTimer.set_duration_sec self v w)).
Proof.
  unfold DebugTimer.set_duration_sec, bind, get_timer, store.
  destruct (heap w !! self) as [[a|d]|] eqn:E; cbn [snd];
    try apply timer_touches_only_refl.
  assert (Hlt : (self < length (heap w))%nat) by (eapply lookup_lt_Some; eauto).
  split; [exists []; now rewrite app_nil_r|]. cbn [heap].
  split; [apply length_insert|]. split.
  - intros l Hne. apply list_lookup_insert_ne. congruence.
  - rewrite list_lookup_insert_eq by exact Hlt. now rewrite E.
Qed.

(** Entering or releasing a timer, whether it succeeds or raises, creates
    no object, changes no accumulator or other object, only adds to the
    printed text, and leaves the timer's [name], [silent] and
    [accumulators] as they were: the set of registered accumulators is
    fixed by the constructor. *)
Theorem DebugTimer_touches_only_self clock g self w :
  timer_touches_only self w (snd (DebugTimer.__enter__ clock g self w))
  /\ timer_touches_only self w (snd (DebugTimer.__exit__ clock g self w)).
Proof.
  split; revert w.
  - unfold DebugTimer.__enter__.
    apply timer_touches_only_bind; [apply timer_touches_only_perf_counter|].
    intros now_. apply timer_touches_only_bind; [apply timer_touches_only_set_start|].
    intros _ w. apply timer_touches_only_refl.
  - unfold DebugTimer.__exit__.
    apply timer_touches_only_bind; [apply timer_touches_only_perf_counter|].
    intros end_. apply timer_touches_only_bind.
    { intros w. apply timer_touches_only_reads.
      unfold DebugTimer.get_start. reads. }
    intros s. apply timer_touches_only_bind;
      [apply timer_touches_only_set_duration_sec|].
    intros _. apply timer_touches_only_bind.
    { intros w. apply timer_touches_only_reads.
      unfold DebugTimer.get_silent. reads. }
    intros b w. apply timer_touches_only_reads.
    destruct b; cbn [negb]; [apply reads_only_ret|].
    apply reads_only_bind; [apply reads_only_report | intros; apply reads_only_ret].
Qed.

(** ** Release of a timer: the ways it ends *)

(** Releasing a timer that was never entered raises [AttributeError] for
    [start]: nothing is printed and [duration_sec] is not assigned. *)
Theorem DebugTimer_exit_before_enter clock g self w d :
  lookup_name "time" g = Some mod_time ->
  heap w !! self = Some (ObjTimer d) ->
  DebugTimer_obj.start d = None ->
  DebugTimer.__exit__ clock g self w
  = (Raise (AttributeError "start"), World (heap w) (stdout w) (S (ticks w))).
Proof.
  intros Hg Hl Hs.
  unfold DebugTimer.__exit__, DebugTimer.get_start,
    time_perf_counter, load_global, perf_counter.
  destruct d as [nm sil accs st ds]. cbn in Hs. subst st.
  rewrite Hg. exec. reflexivity.
Qed.

Lemma DebugTimer_exit_before_enter_witness :
  DebugTimer.__exit__ (clock_two 0 1) module_globals 1%nat w_one_of_each
  = (Raise (AttributeError "start"),
     World (heap w_one_of_each) (stdout w_one_of_each) 1).
Proof.
  exact (DebugTimer_exit_before_enter (clock_two 0 1) module_globals 1%nat
           w_one_of_each
           (DebugTimer_obj.mk (Some None) (Some false) (Some []) None None)
           eq_refl eq_refl eq_refl).
Defined.

(** In the module as written, releasing any entered timer that is not
    silent raises [NameError] for [math] and prints nothing; by then
    [duration_sec] has been assigned and can be read afterwards. *)
Theorem DebugTimer_exit_as_written clock self w d s :
  heap w !! self = Some (ObjTimer d) ->
  DebugTimer_obj.silent d = Some false ->
  DebugTimer_obj.start d = Some s ->
  let r := DebugTimer.__exit__ clock module_globals self w in
  fst r = Raise (NameError "math")
  /\ stdout (snd r) = stdout w
  /\ fst (DebugTimer.get_duration_sec self (snd r)) = Ok (clock (ticks w) - s)%Q.
Proof.
  intros Hl Hsil Hst.
  assert (Hlt : (self < length (heap w))%nat) by (eapply lookup_lt_Some; eauto).
  cbv zeta. rewrite (DebugTimer_exit_loud_as_written clock self w d s Hl Hsil Hst).
  cbn [fst snd stdout]. repeat split.
  unfold DebugTimer.get_duration_sec. exec. reflexivity.
Qed.

Lemma DebugTimer_exit_as_written_witness :
  let w := World [ObjTimer (DebugTimer_obj.mk (Some None) (Some false) (Some [])
                              (Some 2%Q) None)] [] 1 in
  let r := DebugTimer.__exit__ (clock_two 2 5) module_globals 0%nat w in
  fst r = Raise (NameError "math")
  /\ stdout (snd r) = []
  /\ fst (DebugTimer.get_duration_sec 0%nat (snd r)) = Ok (5 - 2)%Q.
Proof.
  exact (DebugTimer_exit_as_written (clock_two 2 5) 0%nat
           (World [ObjTimer (DebugTimer_obj.mk (Some None) (Some false) (Some [])
                               (Some 2%Q) None)] [] 1)
           (DebugTimer_obj.mk (Some None) (Some false) (Some []) (Some 2%Q) None)
           2%Q eq_refl eq_refl eq_refl).
Defined.

(** ** Exceptions of the timed block *)

(** An exception raised inside [with acc:] reaches the caller, since
    [__exit__] returns [None]; the time up to the exception is added to
    [duration] all the same. *)
Theorem TimeAccumulator_with_propagates clock g acc w d n s body e w2 :
  lookup_name "time" g = Some mod_time ->
  heap w !! acc = Some (ObjAcc (TimeAccumulator_obj.mk (Some d) (Some n) s)) ->
  let entered := TimeAccumulator_obj.mk (Some d) (Some (n + 1))
                   (Some (clock (ticks w))) in
  body VNone (World (<[acc := ObjAcc entered]> (heap w)) (stdout w) (S (ticks w)))
  = (Raise e, w2) ->
  heap w2 !! acc = Some (ObjAcc entered) ->
  with_as (TimeAccumulator.__enter__ clock g acc)
          (TimeAccumulator.__exit__ clock g acc) body w
  = (Raise e,
     World (<[acc := ObjAcc (TimeAccumulator_obj.mk
                (Some (d + (clock (ticks w2) - clock (ticks w)))%Q)
                (Some (n + 1)) (Some (clock (ticks w))))]> (heap w2))
           (stdout w2) (S (ticks w2))).
Proof.
  intros Hg Hl entered Hbody Hl2.
  unfold with_as.
  rewrite (TimeAccumulator_enter_spec clock g acc w (Some d) n s Hg Hl).
  fold entered. rewrite Hbody.
  rewrite (TimeAccumulator_exit_spec clock g acc w2 d (Some (n + 1))
             (clock (ticks w)) Hg Hl2).
  reflexivity.
Qed.

Lemma TimeAccumulator_with_propagates_witness :
  run (with_as (TimeAccumulator.__enter__ clock_10ms module_globals 0%nat)
               (TimeAccumulator.__exit__ clock_10ms module_globals 0%nat)
               (fun _ => raise (ValueError "boom")))
      (World [fresh_acc] [] 3)
  = (Raise (ValueError "boom"), []).
Proof.
  unfold run.
  rewrite (TimeAccumulator_with_propagates clock_10ms module_globals 0%nat
             (World [fresh_acc] [] 3) 0.0%Q 0 None
             (fun _ => raise (ValueError "boom")) (ValueError "boom")
             _ eq_refl eq_refl eq_refl eq_refl).
  reflexivity.
Defined.

(** In the module as written, an exception raised inside the block of a
    timer that is not silent does not reach the caller: release raises
    [NameError] for [math], which takes its place. *)
Theorem DebugTimer_with_masks_exception clock self w d body e w2 d2 s :
  heap w !! self = Some (ObjTimer d) ->
  body (VRef self) (snd (DebugTimer.__enter__ clock module_globals self w))
  = (Raise e, w2) ->
  heap w2 !! self = Some (ObjTimer d2) ->
  DebugTimer_obj.silent d2 = Some false ->
  DebugTimer_obj.start d2 = Some s ->
  fst (with_as (DebugTimer.__enter__ clock module_globals self)
               (DebugTimer.__exit__ clock module_globals self) body w)
  = Raise (NameError "math").
Proof.
  intros Hl Hbody Hl2 Hsil Hst. unfold with_as.
  rewrite (DebugTimer_enter_spec clock module_globals self w d eq_refl Hl) in *.
  cbn [snd] in Hbody. rewrite Hbody.
  now rewrite (DebugTimer_exit_loud_as_written clock self w2 d2 s Hl2 Hsil Hst).
Qed.

Lemma DebugTimer_with_masks_exception_witness :
  fst (with_as (DebugTimer.__enter__ (clock_two 0 1) module_globals 1%nat)
               (DebugTimer.__exit__ (clock_two 0 1) module_globals 1%nat)
               (fun _ => raise (ValueError "boom")) w_one_of_each)
  = Raise (NameError "math").
Proof.
  refine (DebugTimer_with_masks_exception (clock_two 0 1) 1%nat w_one_of_each
            (DebugTimer_obj.mk (Some None) (Some false) (Some []) None None)
            (fun _ => raise (ValueError "boom")) (ValueError "boom") _
            (DebugTimer_obj.mk (Some None) (Some false) (Some []) (Some 0%Q) None)
            0%Q eq_refl eq_refl eq_refl eq_refl eq_refl).
Defined.

(** A silent timer lets an exception of its block through and still
    stores [duration_sec]. *)
Theorem DebugTimer_with_silent_propagates clock g self w d body e w2 d2 s :
  lookup_name "time" g = Some mod_time ->
  heap w !! self = Some (ObjTimer d) ->
  body (VRef self) (snd (DebugTimer.__enter__ clock g self w)) = (Raise e, w2) ->
  heap w2 !! self = Some (ObjTimer d2) ->
  DebugTimer_obj.silent d2 = Some true ->
  DebugTimer_obj.start d2 = Some s ->
  with_as (DebugTimer.__enter__ clock g self) (DebugTimer.__exit__ clock g self)
          body w
  = (Raise e,
     World (<[self := ObjTimer (stored d2 (clock (ticks w2) - s)%Q)]> (heap w2))
           (stdout w2) (S (ticks w2))).
Proof.
  intros Hg Hl Hbody Hl2 Hsil Hst. unfold with_as.
  rewrite (DebugTimer_enter_spec clock g self w d Hg Hl) in *.
  cbn [snd] in Hbody. rewrite Hbody.
  now rewrite (DebugTimer_exit_silent_spec clock g self w2 d2 s Hg Hl2 Hsil Hst).
Qed.

Lemma DebugTimer_with_silent_propagates_witness :
  run (with_as (DebugTimer.__enter__ (clock_two 0 1) module_globals 0%nat)
               (DebugTimer.__exit__ (clock_two 0 1) module_globals 0%nat)
               (fun _ => raise (ValueError "boom")))
      (World [ObjTimer (DebugTimer_obj.mk (Some None) (Some true) (Some [])
                          None None)] [] 0)
  = (Raise (ValueError "boom"), []).
Proof.
  unfold run.
  rewrite (DebugTimer_with_silent_propagates (clock_two 0 1) module_globals 0%nat
             (World [ObjTimer (DebugTimer_obj.mk (Some None) (Some true) (Some [])
                                 None None)] [] 0)
             (DebugTimer_obj.mk (Some None) (Some true) (Some []) None None)
             (fun _ => raise (ValueError "boom")) (ValueError "boom") _
             (DebugTimer_obj.mk (Some None) (Some true) (Some []) (Some 0%Q) None)
             0%Q eq_refl eq_refl eq_refl eq_refl eq_refl eq_refl).
  reflexivity.
Defined.

(** ** The dictionary the constructor builds *)

Lemma or_empty_Some names : DebugTimer.or_empty (Some names) = names.
Proof. now destruct names. Qed.

Lemma lookup_name_app {V} (d e : list (string * V)) k :
  lookup_name k (d ++ e)
  = match lookup_name k d with
    | Some v => Some v
    | None => lookup_name k e
    end.
Proof.
  induction d as [|[k' v'] d IH]; cbn; [reflexivity|].
  now destruct (String.eqb k' k).
Qed.

Lemma setitem_fresh {V} (d : list (string * V)) k v :
  lookup_name k d = None -> dict_setitem d k v = (d ++ [(k, v)])%list.
Proof.
  induction d as [|[k' v'] d IH]; cbn; [reflexivity|].
  destruct (String.eqb k' k); [discriminate|].
  intros H. now rewrite IH.
Qed.

Lemma setitem_keys_NoDup {V} (d : list (string * V)) k v :
  List.NoDup (map fst d) -> List.NoDup (map fst (dict_setitem d k v)).
Proof.
  induction d as [|[k' v'] d IH]; cbn; intros Hnd.
  - constructor; [intros [] | constructor].
  - apply List.NoDup_cons_iff in Hnd as [Hk Hnd].
    destruct (String.eqb k' k) eqn:E; cbn.
    + apply List.NoDup_cons_iff. now split.
    + apply List.NoDup_cons_iff. split; [|now apply IH].
      intros Hin. apply Hk. clear IH Hk Hnd.
      induction d as [|[k0 v0] d IH]; cbn in *.
      * destruct Hin as [->|[]]. now rewrite String.eqb_refl in E.
      * destruct (String.eqb k0 k); cbn in Hin; [exact Hin|].
        destruct Hin as [->|Hin]; [now left | right; now apply IH].
Qed.

Lemma dict_comprehension_keys_NoDup names : forall d w d' w',
  DebugTimer.dict_comprehension names d w = (Ok d', w') ->
  List.NoDup (map fst d) -> List.NoDup (map fst d').
Proof.
  induction names as [|n rest IH]; intros d w d' w' Hrun Hnd.
  - cbn in Hrun. now injection Hrun as <- _.
  - cbn [DebugTimer.dict_comprehension] in Hrun.
    rewrite (bind_ok _ _ _ _ _ (TimeAccumulator_new_spec w)) in Hrun.
    eapply IH; [exact Hrun|]. now apply setitem_keys_NoDup.
Qed.

Lemma bind_assoc {A B C} (c : M A) (f : A -> M B) (k : B -> M C) w :
  bind (bind c f) k w = bind c (fun a => bind (f a) k) w.
Proof. unfold bind. now destruct (c w) as [[a|e] w1]. Qed.

Lemma dict_comprehension_app names1 names2 d w :
  DebugTimer.dict_comprehension (names1 ++ names2) d w
  = bind (DebugTimer.dict_comprehension names1 d)
         (DebugTimer.dict_comprehension names2) w.
Proof.
  revert d w. induction names1 as [|n rest IH]; intros d w; [reflexivity|].
  cbn [app DebugTimer.dict_comprehension].
  rewrite bind_assoc.
  rewrite !(bind_ok _ _ _ _ _ (TimeAccumulator_new_spec w)).
  apply IH.
Qed.

Lemma dict_comprehension_distinct names : forall d w,
  List.NoDup names ->
  (forall k, In k names -> lookup_name k d = None) ->
  DebugTimer.dict_comprehension names d w
  = (Ok (d ++ combine names (seq (length (heap w)) (length names)))%list,
     World (heap w ++ replicate (length names) fresh_acc) (stdout w) (ticks w)).
Proof.
  induction names as [|n rest IH]; intros d w Hnd Hfree.
  - cbn. rewrite !app_nil_r. now destruct w.
  - apply List.NoDup_cons_iff in Hnd as [Hn Hnd].
    cbn [DebugTimer.dict_comprehension].
    rewrite (bind_ok _ _ _ _ _ (TimeAccumulator_new_spec w)).
    rewrite setitem_fresh by (apply Hfree; now left).
    rewrite IH; [|exact Hnd|].
    + cbn [heap stdout ticks length seq combine replicate].
      rewrite length_app, Nat.add_1_r, <- !app_assoc. reflexivity.
    + intros k Hk. rewrite lookup_name_app, (Hfree k) by now right.
      cbn. destruct (String.eqb n k) eqn:E; [|reflexivity].
      apply String.eqb_eq in E. subst. contradiction.
Qed.

(** The constructor, given what the dictionary comprehension returns. *)
Lemma DebugTimer_new_with name accumulator_names silent w d w1 :
  DebugTimer.dict_comprehension (DebugTimer.or_empty accumulator_names) []
    (World (heap w ++ [ObjTimer (DebugTimer_obj.mk (Some name) (Some silent)
                                   None None None)]) (stdout w) (ticks w))
  = (Ok d, w1) ->
  heap w1 !! length (heap w)
  = Some (ObjTimer (DebugTimer_obj.mk (Some name) (Some silent) None None None)) ->
  DebugTimer.new name accumulator_names silent w
  = (Ok (length (heap w)),
     World (<[length (heap w) :=
                ObjTimer (DebugTimer_obj.mk (Some name) (Some silent) (Some d)
                            None None)]> (heap w1))
           (stdout w1) (ticks w1)).
Proof.
  intros Hrun Hl.
  unfold DebugTimer.new, DebugTimer.__init__, DebugTimer.set_name,
    DebugTimer.set_silent, DebugTimer.set_accumulators.
  unfold bind at 1. unfold alloc at 1. cbn [heap stdout ticks].
  unfold bind at 1. unfold bind at 1.
  unfold bind at 1. unfold get_timer at 1. cbn [heap stdout ticks].
  rewrite lookup_snoc. unfold store at 1. cbn [heap stdout ticks].
  rewrite insert_snoc.
  unfold bind at 1. unfold bind at 1. unfold get_timer at 1.
  cbn [heap stdout ticks]. rewrite lookup_snoc.
  unfold store at 1. cbn [heap stdout ticks]. rewrite insert_snoc.
  cbn [DebugTimer_obj.name DebugTimer_obj.silent DebugTimer_obj.accumulators
       DebugTimer_obj.start DebugTimer_obj.duration_sec DebugTimer_obj.blank].
  unfold bind at 1. rewrite Hrun.
  unfold bind, get_timer, store, ret. cbv beta iota.
  unfold loc in *. rewrite Hl. reflexivity.
Qed.

(** When the names given to the constructor are distinct, the timer's
    dictionary lists them in the order given, each with an accumulator of
    its own, created in that order right after the timer; this is the
    order in which the report goes through them. *)
Theorem DebugTimer_new_registration_order name names silent w :
  List.NoDup names ->
  let timer := length (heap w) in
  DebugTimer.new name (Some names) silent w
  = (Ok timer,
     World (heap w
            ++ ObjTimer (DebugTimer_obj.mk (Some name) (Some silent)
                           (Some (combine names (seq (S timer) (length names))))
                           None None)
            :: replicate (length names) fresh_acc)
           (stdout w) (ticks w)).
Proof.
  intros Hnd timer. subst timer.
  erewrite DebugTimer_new_with.
  2:{ rewrite or_empty_Some.
      apply dict_comprehension_distinct; [exact Hnd | reflexivity]. }
  2:{ cbn [heap]. rewrite <- app_assoc. now apply list_lookup_middle. }
  cbn [heap stdout ticks app]. rewrite <- app_assoc. cbn [app].
  rewrite insert_middle, length_app, Nat.add_1_r. reflexivity.
Qed.

Lemma DebugTimer_new_registration_order_witness :
  DebugTimer.new (Some "loop") (Some ["a"; "b"; "c"]) false w0
  = (Ok 0%nat,
     World [ObjTimer (DebugTimer_obj.mk (Some (Some "loop")) (Some false)
                        (Some [("a", 1%nat); ("b", 2%nat); ("c", 3%nat)])
                        None None);
            fresh_acc; fresh_acc; fresh_acc] [] 0).
Proof.
  refine (DebugTimer_new_registration_order (Some "loop") ["a"; "b"; "c"]
            false w0 _).
  repeat (constructor; [cbn; intuition discriminate|]). constructor.
Defined.

(** When a name is given more than once, the dictionary keeps one entry
    for it, holding the accumulator created for its last occurrence; the
    accumulators created for the earlier occurrences stay in the heap,
    one per name given, but no key leads to them. *)
Theorem DebugTimer_new_duplicate_names name (pre : list string) k post silent w :
  ~ In k post ->
  let timer := length (heap w) in
  exists d w',
    DebugTimer.new name (Some (pre ++ k :: post)%list) silent w = (Ok timer, w')
    /\ DebugTimer.get_accumulators timer w' = (Ok d, w')
    /\ List.NoDup (map fst d)
    /\ lookup_name k d = Some (S timer + length pre)%nat
    /\ length (heap w') = (S timer + length (pre ++ k :: post)%list)%nat.
Proof.
  intros Hk timer. subst timer.
  set (names := (pre ++ k :: post)%list).
  set (w1 := World (heap w ++ [ObjTimer (DebugTimer_obj.mk (Some name)
                       (Some silent) None None None)]) (stdout w) (ticks w)).
  destruct (dict_comprehension_spec names [] w1) as (d & Hrun & _).
  exists d. eexists. split.
  { apply (DebugTimer_new_with name (Some names) silent w d).
    - rewrite or_empty_Some. exact Hrun.
    - cbn [heap w1]. rewrite <- app_assoc. now apply list_lookup_middle. }
  cbn [heap stdout ticks w1].
  assert (Hlt : (length (heap w)
                 < length ((heap w ++ [ObjTimer (DebugTimer_obj.mk (Some name)
                              (Some silent) None None None)])
                           ++ replicate (length names) fresh_acc))%nat)
    by (rewrite !length_app; cbn; lia).
  split; [|split; [|split]].
  - unfold DebugTimer.get_accumulators, bind, get_timer. cbn [heap].
    unfold loc in *. rewrite list_lookup_insert_eq by exact Hlt. reflexivity.
  - eapply dict_comprehension_keys_NoDup; [exact Hrun | constructor].
  - (* the entry of [k] is the one set at its last occurrence *)
    subst names. rewrite dict_comprehension_app in Hrun.
    destruct (dict_comprehension_spec pre [] w1) as (d1 & Hrun1 & _).
    rewrite (bind_ok _ _ _ _ _ Hrun1) in Hrun.
    cbn [DebugTimer.dict_comprehension] in Hrun.
    match type of Hrun with
    | bind _ _ ?w2 = _ =>
        rewrite (bind_ok _ _ _ _ _ (TimeAccumulator_new_spec w2)) in Hrun
    end.
    cbn [heap stdout ticks] in Hrun.
    match type of Hrun with
    | DebugTimer.dict_comprehension post ?d2 ?w3 = _ =>
        destruct (dict_comprehension_spec post d2 w3) as (d' & Hrun' & _ & Hout & _)
    end.
    rewrite Hrun' in Hrun. injection Hrun as <- _.
    rewrite (Hout k Hk), lookup_setitem_eq.
    f_equal. subst w1. cbn [heap]. rewrite !length_app, length_replicate. cbn. lia.
  - rewrite length_insert, !length_app, length_replicate. cbn. lia.
Qed.

Lemma DebugTimer_new_duplicate_names_witness :
  exists d w',
    DebugTimer.new None (Some ["a"; "b"; "a"]) false w0 = (Ok 0%nat, w')
    /\ DebugTimer.get_accumulators 0%nat w' = (Ok d, w')
    /\ lookup_name "a" d = Some 3%nat
    /\ length (heap w') = 4%nat.
Proof.
  destruct (DebugTimer_new_duplicate_names None ["a"; "b"] "a" [] false w0)
    as (d & w' & Hnew & Hget & _ & Hk & Hlen); [intros []|].
  exists d, w'. repeat split; assumption.
Defined.

(** ** Which unit the scaling loop selects

    These hold wherever [math] names the math module; the module as
    written never gets that far. *)

Lemma in_range_div v c :
  (0 < c)%Q -> in_range (v / c) <-> (c < v)%Q /\ (v < 1000 * c)%Q.
Proof.
  intros Hc. assert (Hc0 : ~ (c == 0)%Q) by (intros E; rewrite E in Hc; lra).
  unfold in_range. split; intros [H1 H2]; split.
  - apply (Qmult_lt_compat_r _ _ c Hc) in H1.
    unfold Qdiv in H1. rewrite <- Qmult_assoc, (Qmult_comm (/ c)),
      Qmult_inv_r, Qmult_1_r, Qmult_1_l in H1 by exact Hc0. exact H1.
  - apply (Qmult_lt_compat_r _ _ c Hc) in H2.
    unfold Qdiv in H2. rewrite <- Qmult_assoc, (Qmult_comm (/ c)),
      Qmult_inv_r, Qmult_1_r in H2 by exact Hc0. exact H2.
  - apply Qlt_shift_div_l; [exact Hc | now rewrite Qmult_1_l].
  - apply Qlt_shift_div_r; [exact Hc | exact H2].
Qed.

Ltac plain_consts :=
  change (1e-9)%Q with (1 # 1000000000)%Q in *;
  change (1e-6)%Q with (1 # 1000000)%Q in *;
  change (1e-3)%Q with (1 # 1000)%Q in *.

Ltac unit_side :=
  repeat first
    [ apply List.Forall_cons
    | apply List.Forall_nil
    | progress cbn [fst]
    | match goal with
      | |- ~ in_range (?x / ?c) =>
          let H := fresh in
          intros H; apply (proj1 (in_range_div x c eq_refl)) in H; lra
      | |- in_range (?x / ?c) => apply (proj2 (in_range_div x c eq_refl)); lra
      | |- (0 < _)%Q => reflexivity
      end ].



(** The positive durations no unit takes: up to one nanosecond, exactly
    one microsecond, one millisecond or one second, and from 1000 hours
    on.  The loop then ends with the locals of its last iteration, and the
    duration is rendered in hours. *)
Theorem scale_falls_through_to_hours g v cur w :
  lookup_name "math" g = Some mod_math ->
  ((0 < v)%Q /\ (v <= 1e-9)%Q) \/ (v == 1e-6)%Q \/ (v == 1e-3)%Q \/ (v == 1)%Q
  \/ (3600000 <= v)%Q ->
  DebugTimer.scale g DebugTimer.units_own v cur w
  = (Ok (Some ((v / (60 * 60))%Q, "h")), w).
Proof.
  intros Hg Hv. unfold DebugTimer.units_own. plain_consts.
  apply (scale_fall_through g [(_, _); (_, _); (_, _); (_, _); (_, _)]
           _ _ v cur w Hg).
  - destruct Hv as [[H1 H2]|[H|[H|[H|H]]]]; lra.
  - unit_side.
  - destruct Hv as [[H1 H2]|[H|[H|[H|H]]]]; unit_side.
Qed.

Lemma scale_falls_through_to_hours_witness :
  DebugTimer.scale globals_with_math DebugTimer.units_own 1e-3 None w0
  = (Ok (Some ((1e-3 / (60 * 60))%Q, "h")), w0).
Proof.
  apply (scale_falls_through_to_hours globals_with_math 1e-3 None w0 eq_refl).
  right. right. left. reflexivity.
Defined.

(** With [math] bound, releasing a timer that is not silent when the
    clock has not advanced since it was entered raises [ValueError] from
    [math.log10]; [duration_sec] has been stored and nothing is printed. *)
Theorem DebugTimer_exit_clock_not_advanced clock g self w d s :
  lookup_name "time" g = Some mod_time ->
  lookup_name "math" g = Some mod_math ->
  heap w !! self = Some (ObjTimer d) ->
  DebugTimer_obj.silent d = Some false ->
  DebugTimer_obj.start d = Some s ->
  (clock (ticks w) <= s)%Q ->
  DebugTimer.__exit__ clock g self w
  = (Raise (ValueError "math domain error"),
     World (<[self := ObjTimer (stored d (clock (ticks w) - s)%Q)]> (heap w))
           (stdout w) (S (ticks w))).
Proof.
  intros Ht Hm Hl Hsil Hst Hle.
  rewrite (DebugTimer_exit_unfold clock g self w d s false Ht Hl Hsil Hst).
  cbv zeta. unfold DebugTimer.report, DebugTimer.units_own.
  rewrite bind_assoc.
  erewrite bind_raise; [reflexivity|].
  apply scale_not_positive; [exact Hm | lra | reflexivity].
Qed.

Lemma DebugTimer_exit_clock_not_advanced_witness :
  run (DebugTimer.__exit__ (clock_two 7 7) globals_with_math 0%nat)
      (World [ObjTimer (DebugTimer_obj.mk (Some None) (Some false) (Some [])
                          (Some 7%Q) None)] [] 1)
  = (Raise (ValueError "math domain error"), []).
Proof.
  unfold run.
  rewrite (DebugTimer_exit_clock_not_advanced (clock_two 7 7) globals_with_math
             0%nat
             (World [ObjTimer (DebugTimer_obj.mk (Some None) (Some false) (Some [])
                                 (Some 7%Q) None)] [] 1)
             (DebugTimer_obj.mk (Some None) (Some false) (Some []) (Some 7%Q) None)
             7%Q eq_refl eq_refl eq_refl eq_refl eq_refl).
  - reflexivity.
  - discriminate.
Defined.

(** ** Release with [math] bound and time elapsed *)

Lemma scale_total_from g units : forall v m0 u0 w,
  lookup_name "math" g = Some mod_math ->
  (0 < v)%Q ->
  Forall (fun cu => (0 < fst cu)%Q) units ->
  exists m u,
    DebugTimer.scale g units v (Some (m0, u0)) w = (Ok (Some (m, u)), w)
    /\ In u (u0 :: map snd units).
Proof.
  induction units as [|[c u1] rest IH]; intros v m0 u0 w Hg Hv Hpos.
  - exists m0, u0. split; [reflexivity | now left].
  - apply List.Forall_cons_iff in Hpos as [Hc Hpos].
    rewrite scale_step by assumption.
    destruct (int_lt_log 0 (Log10 (v / c)) && log_lt_int (Log10 (v / c)) 3).
    + exists (v / c)%Q, u1. split; [reflexivity | right; now left].
    + destruct (IH v (v / c)%Q u1 w Hg Hv Hpos) as (m & u & Hrun & Hin).
      exists m, u. split; [exact Hrun|].
      destruct Hin as [<-|Hin]; [right; now left | right; now right].
Qed.

Lemma scale_total g c u1 rest v cur w :
  lookup_name "math" g = Some mod_math ->
  (0 < v)%Q ->
  Forall (fun cu => (0 < fst cu)%Q) ((c, u1) :: rest) ->
  exists m u,
    DebugTimer.scale g ((c, u1) :: rest) v cur w = (Ok (Some (m, u)), w)
    /\ In u (map snd ((c, u1) :: rest)).
Proof.
  intros Hg Hv Hpos. apply List.Forall_cons_iff in Hpos as [Hc Hpos].
  rewrite scale_step by assumption.
  destruct (int_lt_log 0 (Log10 (v / c)) && log_lt_int (Log10 (v / c)) 3).
  - exists (v / c)%Q, u1. split; [reflexivity | now left].
  - apply scale_total_from; assumption.
Qed.

Lemma units_acc_positive :
  Forall (fun cu => (0 < fst cu)%Q) DebugTimer.units_acc.
Proof. unfold DebugTimer.units_acc. repeat constructor. Qed.

Lemma units_own_positive :
  Forall (fun cu => (0 < fst cu)%Q) DebugTimer.units_own.
Proof. unfold DebugTimer.units_own. repeat constructor. Qed.

Lemma get_num_calls_ok l w d n s :
  heap w !! l = Some (ObjAcc (TimeAccumulator_obj.mk d (Some n) s)) ->
  TimeAccumulator.get_num_calls l w = (Ok n, w).
Proof.
  intros H. unfold TimeAccumulator.get_num_calls.
  now rewrite (bind_ok _ _ _ _ _ (get_acc_ok _ _ _ H)).
Qed.

Lemma get_duration_ok l w d n s :
  heap w !! l = Some (ObjAcc (TimeAccumulator_obj.mk (Some d) n s)) ->
  TimeAccumulator.get_duration l w = (Ok d, w).
Proof.
  intros H. unfold TimeAccumulator.get_duration.
  now rewrite (bind_ok _ _ _ _ _ (get_acc_ok _ _ _ H)).
Qed.

(** One accumulator that has been acquired and has a positive duration
    adds exactly one line. *)
Lemma report_accumulator_line g name acc cur h out t d n s :
  lookup_name "math" g = Some mod_math ->
  h !! acc = Some (ObjAcc (TimeAccumulator_obj.mk (Some d) (Some n) s)) ->
  0 < n -> (0 < d)%Q ->
  exists line cur',
    DebugTimer.report_accumulator g name acc cur (World h out t)
    = (Ok cur', World h (out ++ [line]) t).
Proof.
  intros Hg Hl Hn Hd.
  assert (Hn' : (0 < inject_Z n)%Q) by (unfold Qlt; cbn; lia).
  assert (Hq : (0 < d / inject_Z n)%Q)
    by (apply Qlt_shift_div_l; [exact Hn' | now rewrite Qmult_0_l]).
  assert (Hnz : Qeq_bool (inject_Z n) 0 = false).
  { destruct (Qeq_bool (inject_Z n) 0) eqn:E; [|reflexivity].
    apply Qeq_bool_iff in E. rewrite E in Hn'. now apply Qlt_irrefl in Hn'. }
  unfold DebugTimer.report_accumulator, DebugTimer.units_acc.
  rewrite (bind_ok _ _ _ _ _ (get_num_calls_ok acc (World h out t) _ n s Hl)).
  apply Z.ltb_lt in Hn. rewrite Hn.
  rewrite (bind_ok _ _ _ _ _ (get_duration_ok acc (World h out t) d _ s Hl)).
  destruct (scale_total g _ _ _ d cur (World h out t) Hg Hd units_acc_positive)
    as (m1 & u1 & Hs1 & _).
  unfold DebugTimer.units_acc in Hs1.
  rewrite (bind_ok _ _ _ _ _ Hs1). cbn [DebugTimer.fmt_locals].
  rewrite (bind_ok (ret _) _ _ _ _ eq_refl).
  rewrite (bind_ok _ _ _ _ _ (get_duration_ok acc (World h out t) d _ s Hl)).
  rewrite (bind_ok _ _ _ _ _ (get_num_calls_ok acc (World h out t) _ n s Hl)).
  unfold truediv. rewrite Hnz. rewrite (bind_ok (ret _) _ _ _ _ eq_refl).
  destruct (scale_total g _ _ _ (d / inject_Z n)%Q (Some (m1, u1))
              (World h out t) Hg Hq units_acc_positive)
    as (m2 & u2 & Hs2 & _).
  unfold DebugTimer.units_acc in Hs2.
  rewrite (bind_ok _ _ _ _ _ Hs2). cbn [DebugTimer.fmt_locals].
  rewrite (bind_ok (ret _) _ _ _ _ eq_refl).
  rewrite (bind_ok _ _ _ _ _ (get_num_calls_ok acc (World h out t) _ n s Hl)).
  eexists _, _. reflexivity.
Qed.

Lemma report_accumulator_not_acquired g name acc cur w d n s :
  heap w !! acc = Some (ObjAcc (TimeAccumulator_obj.mk d (Some n) s)) ->
  n <= 0 ->
  DebugTimer.report_accumulator g name acc cur w = (Ok cur, w).
Proof.
  intros Hl Hn. unfold DebugTimer.report_accumulator.
  rewrite (bind_ok _ _ _ _ _ (get_num_calls_ok acc w d n s Hl)).
  apply Z.ltb_ge in Hn. now rewrite Hn.
Qed.

Lemma report_accumulators_lines g items : forall cur h out t,
  lookup_name "math" g = Some mod_math ->
  Forall (fun kl => reportable h (snd kl)) items ->
  exists lines,
    DebugTimer.report_accumulators g items cur (World h out t)
    = (Ok tt, World h (out ++ lines) t)
    /\ length lines = length (List.filter (fun kl => acquired h (snd kl)) items).
Proof.
  induction items as [|[k l] rest IH]; intros cur h out t Hg Hall.
  - exists []. cbn. now rewrite app_nil_r.
  - apply List.Forall_cons_iff in Hall as [(d & n & s & Hl & Hpos) Hall].
    cbn [DebugTimer.report_accumulators List.filter snd].
    unfold acquired at 1. cbn [snd] in Hl. rewrite Hl.
    cbn [TimeAccumulator_obj.num_calls].
    destruct (0 <? n) eqn:En.
    + apply Z.ltb_lt in En.
      destruct (report_accumulator_line g k l cur h out t d n s Hg Hl En (Hpos En))
        as (line & cur' & Hrun).
      rewrite (bind_ok _ _ _ _ _ Hrun).
      destruct (IH cur' h (out ++ [line])%list t Hg Hall) as (lines & Hrest & Hlen).
      exists (line :: lines). rewrite Hrest. split.
      * now rewrite <- app_assoc.
      * cbn. now rewrite Hlen.
    + apply Z.ltb_ge in En.
      rewrite (bind_ok _ _ _ _ _
                 (report_accumulator_not_acquired g k l cur (World h out t)
                    _ n s Hl En)).
      apply IH; assumption.
Qed.

(** With [math] bound, releasing a timer that is not silent succeeds
    whenever time has passed since it was entered and every accumulator
    that has been acquired has a positive duration.  It then prints one
    line that begins [Code block], followed by one line for each acquired
    accumulator and none for the others. *)
Theorem DebugTimer_exit_succeeds clock g self w nm items s ds :
  lookup_name "time" g = Some mod_time ->
  lookup_name "math" g = Some mod_math ->
  heap w !! self
  = Some (ObjTimer (DebugTimer_obj.mk (Some nm) (Some false) (Some items)
                      (Some s) ds)) ->
  (s < clock (ticks w))%Q ->
  Forall (fun kl => reportable (heap w) (snd kl)) items ->
  exists m u lines,
    DebugTimer.__exit__ clock g self w
    = (Ok VNone,
       World (<[self := ObjTimer (DebugTimer_obj.mk (Some nm) (Some false)
                          (Some items) (Some s) (Some (clock (ticks w) - s)%Q))]>
                (heap w))
             (stdout w
              ++ own_line nm m u :: lines)
             (S (ticks w)))
    /\ In u ["ns"; "us"; "ms"; "s"; "m"; "h"]
    /\ length lines
       = length (List.filter (fun kl => acquired (heap w) (snd kl)) items).
Proof.
  intros Ht Hm Hl Hlt Hall.
  assert (Hself : (self < length (heap w))%nat) by (eapply lookup_lt_Some; eauto).
  rewrite (DebugTimer_exit_unfold clock g self w _ s false Ht Hl eq_refl eq_refl).
  cbv zeta. unfold stored. cbn [DebugTimer_obj.name DebugTimer_obj.silent
    DebugTimer_obj.accumulators DebugTimer_obj.start].
  set (v := (clock (ticks w) - s)%Q).
  assert (Hv : (0 < v)%Q) by (subst v; lra).
  set (d1 := DebugTimer_obj.mk (Some nm) (Some false) (Some items) (Some s) (Some v)).
  set (h1 := <[self := ObjTimer d1]> (heap w)).
  assert (Hl1 : h1 !! self = Some (ObjTimer d1))
    by (subst h1; now apply list_lookup_insert_eq).
  assert (Hall1 : Forall (fun kl => reportable h1 (snd kl)) items).
  { eapply List.Forall_impl; [|exact Hall]. intros [k l] (d & n & s' & Hk & Hpos).
    exists d, n, s'. split; [|exact Hpos]. cbn [snd] in *. subst h1.
    rewrite list_lookup_insert_ne; [exact Hk|].
    intros ->. rewrite Hl in Hk. discriminate. }
  assert (Hacq : forall l, acquired h1 l = acquired (heap w) l).
  { intros l. unfold acquired. subst h1.
    destruct (decide (l = self)) as [->|Hne].
    - now rewrite list_lookup_insert_eq, Hl by exact Hself.
    - now rewrite list_lookup_insert_ne by congruence. }
  assert (Hreport : exists m u lines,
    DebugTimer.report g self v (World h1 (stdout w) (S (ticks w)))
    = (Ok tt, World h1 (stdout w
                        ++ own_line nm m u :: lines)
                    (S (ticks w)))
    /\ In u ["ns"; "us"; "ms"; "s"; "m"; "h"]
    /\ length lines
       = length (List.filter (fun kl => acquired (heap w) (snd kl)) items)).
  { unfold DebugTimer.report, DebugTimer.units_own.
    destruct (scale_total g _ _ _ v None (World h1 (stdout w) (S (ticks w)))
                Hm Hv units_own_positive) as (m & u & Hs & Hu).
    unfold DebugTimer.units_own in Hs.
    exists m, u.
    rewrite (bind_ok _ _ _ _ _ Hs). cbn [DebugTimer.fmt_locals].
    rewrite (bind_ok (ret _) _ _ _ _ eq_refl).
    rewrite (bind_ok _ _ _ _ _
               (eq_trans (get_name_at self h1 _ _ d1 Hl1) eq_refl)).
    rewrite (bind_ok (print _) _ (World h1 _ _) tt _ eq_refl).
    cbn [heap stdout ticks].
    rewrite (bind_ok _ _ _ _ _
               (eq_trans (get_accumulators_at self h1 _ _ d1 Hl1) eq_refl)).
    destruct (report_accumulators_lines g items (Some (m, u)) h1
                (stdout w ++ [own_line nm m u])%list
                (S (ticks w)) Hm Hall1) as (lines & Hrun & Hlen).
    exists lines. unfold own_line in *. rewrite Hrun. split; [|split].
    - rewrite <- app_assoc. reflexivity.
    - exact Hu.
    - rewrite Hlen. f_equal. apply List.filter_ext. intros [k l]. apply Hacq. }
  destruct Hreport as (m & u & lines & Hrun & Hu & Hlen).
  exists m, u, lines. rewrite (bind_ok _ _ _ _ _ Hrun).
  split; [reflexivity | split; assumption].
Qed.

Lemma DebugTimer_exit_succeeds_witness :
  exists m u lines,
    DebugTimer.__exit__ (clock_two 0 0.5) globals_with_math 0%nat w_a_and_b
    = (Ok VNone,
       World (<[0%nat := ObjTimer (DebugTimer_obj.mk (Some (Some "loop"))
                           (Some false) (Some [("a", 1%nat); ("b", 2%nat)])
                           (Some 0%Q) (Some (0.5 - 0)%Q))]> (heap w_a_and_b))
             (own_line (Some "loop") m u :: lines) 2)
    /\ length lines = 1%nat.
Proof.
  destruct (DebugTimer_exit_succeeds (clock_two 0 0.5) globals_with_math 0%nat
              w_a_and_b (Some "loop") [("a", 1%nat); ("b", 2%nat)] 0%Q None
              eq_refl eq_refl eq_refl eq_refl)
    as (m & u & lines & Hrun & _ & Hlen).
  - repeat constructor.
    + exists 0.03%Q, 3, (Some 0.2%Q). split; reflexivity.
    + exists 0.0%Q, 0, None. split; [reflexivity | lia].
  - exists m, u, lines. split; [exact Hrun | exact Hlen].
Defined.

(** ** An acquired accumulator with no time on it *)

Lemma report_accumulator_no_time g name acc cur w d n s :
  lookup_name "math" g = Some mod_math ->
  heap w !! acc = Some (ObjAcc (TimeAccumulator_obj.mk (Some d) (Some n) s)) ->
  0 < n -> (d <= 0)%Q ->
  DebugTimer.report_accumulator g name acc cur w
  = (Raise (ValueError "math domain error"), w).
Proof.
  intros Hg Hl Hn Hd.
  unfold DebugTimer.report_accumulator, DebugTimer.units_acc.
  rewrite (bind_ok _ _ _ _ _ (get_num_calls_ok acc w _ n s Hl)).
  apply Z.ltb_lt in Hn. rewrite Hn.
  rewrite (bind_ok _ _ _ _ _ (get_duration_ok acc w d _ s Hl)).
  erewrite bind_raise; [reflexivity|].
  apply scale_not_positive; [exact Hg | exact Hd | reflexivity].
Qed.

Lemma report_accumulators_stops g k acc post d n s pre : forall cur h out t,
  lookup_name "math" g = Some mod_math ->
  Forall (fun kl => reportable h (snd kl)) pre ->
  h !! acc = Some (ObjAcc (TimeAccumulator_obj.mk (Some d) (Some n) s)) ->
  0 < n -> (d <= 0)%Q ->
  exists lines,
    DebugTimer.report_accumulators g (pre ++ (k, acc) :: post) cur (World h out t)
    = (Raise (ValueError "math domain error"), World h (out ++ lines) t)
    /\ length lines = length (List.filter (fun kl => acquired h (snd kl)) pre).
Proof.
  induction pre as [|[k1 l1] pre IH]; intros cur h out t Hg Hall Hl Hn Hd.
  - exists []. cbn [app DebugTimer.report_accumulators].
    rewrite (bind_raise _ _ _ _ _
               (report_accumulator_no_time g k acc cur (World h out t)
                  d n s Hg Hl Hn Hd)).
    now rewrite app_nil_r.
  - apply List.Forall_cons_iff in Hall as [(d1 & n1 & s1 & Hl1 & Hpos) Hall].
    cbn [app DebugTimer.report_accumulators List.filter snd].
    unfold acquired at 1. cbn [snd] in Hl1. rewrite Hl1.
    cbn [TimeAccumulator_obj.num_calls].
    destruct (0 <? n1) eqn:En.
    + apply Z.ltb_lt in En.
      destruct (report_accumulator_line g k1 l1 cur h out t d1 n1 s1 Hg Hl1 En
                  (Hpos En)) as (line & cur' & Hrun).
      rewrite (bind_ok _ _ _ _ _ Hrun).
      destruct (IH cur' h (out ++ [line])%list t Hg Hall Hl Hn Hd)
        as (lines & Hrest & Hlen).
      exists (line :: lines). rewrite Hrest. split.
      * now rewrite <- app_assoc.
      * cbn. now rewrite Hlen.
    + apply Z.ltb_ge in En.
      rewrite (bind_ok _ _ _ _ _
                 (report_accumulator_not_acquired g k1 l1 cur (World h out t)
                    _ n1 s1 Hl1 En)).
      apply IH; assumption.
Qed.

(** With [math] bound, an accumulator that has been acquired but whose
    duration is still 0 (no time between acquisition and release, or not
    released yet) makes the release of its timer raise [ValueError], after
    the timer's own line and the lines of the accumulators before it have
    been printed. *)
Theorem DebugTimer_exit_accumulator_without_time
    clock g self w nm pre k acc post s ds d n sa :
  lookup_name "time" g = Some mod_time ->
  lookup_name "math" g = Some mod_math ->
  heap w !! self
  = Some (ObjTimer (DebugTimer_obj.mk (Some nm) (Some false)
                      (Some (pre ++ (k, acc) :: post)%list) (Some s) ds)) ->
  (s < clock (ticks w))%Q ->
  Forall (fun kl => reportable (heap w) (snd kl)) pre ->
  heap w !! acc = Some (ObjAcc (TimeAccumulator_obj.mk (Some d) (Some n) sa)) ->
  0 < n -> (d <= 0)%Q ->
  exists m u lines,
    run (DebugTimer.__exit__ clock g self) w
    = (Raise (ValueError "math domain error"),
       (stdout w ++ own_line nm m u :: lines)%list)
    /\ length lines
       = length (List.filter (fun kl => acquired (heap w) (snd kl)) pre).
Proof.
  intros Ht Hm Hl Hlt Hall Hacc Hn Hd.
  assert (Hself : (self < length (heap w))%nat) by (eapply lookup_lt_Some; eauto).
  unfold run.
  rewrite (DebugTimer_exit_unfold clock g self w _ s false Ht Hl eq_refl eq_refl).
  cbv zeta. unfold stored. cbn [DebugTimer_obj.name DebugTimer_obj.silent
    DebugTimer_obj.accumulators DebugTimer_obj.start].
  set (v := (clock (ticks w) - s)%Q).
  assert (Hv : (0 < v)%Q) by (subst v; lra).
  set (items := (pre ++ (k, acc) :: post)%list) in *.
  set (d1 := DebugTimer_obj.mk (Some nm) (Some false) (Some items) (Some s) (Some v)).
  set (h1 := <[self := ObjTimer d1]> (heap w)).
  assert (Hl1 : h1 !! self = Some (ObjTimer d1))
    by (subst h1; now apply list_lookup_insert_eq).
  assert (Hother : forall (l : loc) o,
             heap w !! l = Some (ObjAcc o) -> h1 !! l = Some (ObjAcc o)).
  { intros l o Hk. subst h1. rewrite list_lookup_insert_ne; [exact Hk|].
    intros E. subst l. unfold loc in *. congruence. }
  assert (Hall1 : Forall (fun kl => reportable h1 (snd kl)) pre).
  { eapply List.Forall_impl; [|exact Hall]. intros [k0 l] (d0 & n0 & s0 & Hk & Hpos).
    exists d0, n0, s0. split; [|exact Hpos]. now apply Hother. }
  assert (Hacq : forall l, acquired h1 l = acquired (heap w) l).
  { intros l. unfold acquired. subst h1.
    destruct (decide (l = self)) as [->|Hne].
    - now rewrite list_lookup_insert_eq, Hl by exact Hself.
    - now rewrite list_lookup_insert_ne by congruence. }
  unfold DebugTimer.report, DebugTimer.units_own.
  destruct (scale_total g _ _ _ v None (World h1 (stdout w) (S (ticks w)))
              Hm Hv units_own_positive) as (m & u & Hs & Hu).
  unfold DebugTimer.units_own in Hs.
  exists m, u.
  rewrite bind_assoc.
  rewrite (bind_ok _ _ _ _ _ Hs). cbn [DebugTimer.fmt_locals].
  rewrite bind_assoc, (bind_ok (ret _) _ _ _ _ eq_refl).
  rewrite bind_assoc, (bind_ok _ _ _ _ _
            (eq_trans (get_name_at self h1 _ _ d1 Hl1) eq_refl)).
  rewrite bind_assoc, (bind_ok (print _) _ (World h1 _ _) tt _ eq_refl).
  cbn [heap stdout ticks].
  rewrite bind_assoc, (bind_ok _ _ _ _ _
            (eq_trans (get_accumulators_at self h1 _ _ d1 Hl1) eq_refl)).
  destruct (report_accumulators_stops g k acc post d n sa pre (Some (m, u)) h1
              (stdout w ++ [own_line nm m u])%list (S (ticks w))
              Hm Hall1 (Hother _ _ Hacc) Hn Hd) as (lines & Hrun & Hlen).
  exists lines. unfold own_line in *. subst items.
  rewrite (bind_raise _ _ _ _ _ Hrun). cbn [fst snd stdout]. split.
  - now rewrite <- app_assoc.
  - rewrite Hlen. f_equal. apply List.filter_ext. intros [k0 l]. apply Hacq.
Qed.

Lemma DebugTimer_exit_accumulator_without_time_witness :
  exists m u lines,
    run (DebugTimer.__exit__ (clock_two 0 0.5) globals_with_math 0%nat) w_no_time
    = (Raise (ValueError "math domain error"), own_line None m u :: lines)
    /\ length lines = 0%nat.
Proof.
  exact (DebugTimer_exit_accumulator_without_time (clock_two 0 0.5)
           globals_with_math 0%nat w_no_time None [] "f" 1%nat [] 0%Q None
           0.0%Q 1 (Some 0.2%Q) eq_refl eq_refl eq_refl eq_refl
           (List.Forall_nil _) eq_refl eq_refl ltac:(discriminate)).
Defined.
